(** * read-bridge: directory scanning and book ingestion

    A shallow embedding of [services/TauriService.ts] and
    [services/BookScanner.ts].  Asynchronous code is sequential (every
    promise is awaited where it is created), so it is modelled by state
    passing: a computation takes the world it starts in and returns the world
    it leaves together with either the value it throws or the value it
    returns. *)

From Stdlib Require Import String Ascii List Bool Arith Lia DecimalString.
Import ListNotations.
Local Open Scope string_scope.
Local Open Scope list_scope.

(** ** JavaScript values that can be thrown *)

(** The code only ever asks two things of a caught value: whether it is an
    [Error] instance (then its [name] and [message] are read) and, if it is
    not, what [String(value)] renders.  [JsOther rendered] stands for a value
    that is not an [Error] and that [String] renders as [rendered]; a value
    whose conversion to a string itself throws (a throwing [toString], an
    object without prototype) has no counterpart here. *)
Inductive JsValue : Type :=
| JsError (name message : string)
| JsOther (rendered : string).

Definition instanceof_Error (v : JsValue) : bool :=
  match v with JsError _ _ => true | JsOther _ => false end.

Definition error_name (v : JsValue) : string :=
  match v with JsError n _ => n | JsOther _ => "" end.

Definition error_message (v : JsValue) : string :=
  match v with JsError _ m => m | JsOther _ => "" end.

(** [String(value)]; an [Error] renders as [name: message], or as the one
    of the two that is not empty. *)
Definition String_ (v : JsValue) : string :=
  match v with
  | JsError n m =>
      if String.eqb n "" then m
      else if String.eqb m "" then n
      else (n ++ ": " ++ m)%string
  | JsOther s => s
  end.

(** [new Error(message)] *)
Definition new_Error (message : string) : JsValue := JsError "Error" message.

(** [error instanceof Error ? error.message : String(error)] *)
Definition message_or_String (error : JsValue) : string :=
  if instanceof_Error error then error_message error else String_ error.

(** ** Strings *)

(** [s.endsWith(search)]: the last [search.length] code units of [s] are
    compared with [search], exactly (no case folding). *)
Definition endsWith (s search : string) : bool :=
  let n := String.length s in
  let m := String.length search in
  if Nat.leb m n then String.eqb (substring (n - m) m s) search else false.

(** ** Files *)

Record File : Type := mkFile {
  file_name : string;
  file_type : string;
  file_bytes : list Byte.byte
}.

(** [new File([contents], name, { type })] *)
Definition new_File (contents : list Byte.byte) (name type : string) : File :=
  mkFile name type contents.

(** ** The world and the computations over it *)

(** One line written by [console.error(text, value)]. *)
Record LogLine : Type := mkLog {
  log_text : string;
  log_value : JsValue
}.

Record World (Store : Type) : Type := mkWorld {
  console : list LogLine;
  store : Store
}.
Arguments mkWorld {Store} _ _.
Arguments console {Store} _.
Arguments store {Store} _.

Definition Js (Store A : Type) : Type :=
  World Store -> World Store * (JsValue + A).

Definition ret {Store A} (a : A) : Js Store A :=
  fun w => (w, inr a).

Definition throw {Store A} (error : JsValue) : Js Store A :=
  fun w => (w, inl error).

Definition bind {Store A B} (m : Js Store A) (k : A -> Js Store B) : Js Store B :=
  fun w =>
    match m w with
    | (w', inr a) => k a w'
    | (w', inl error) => (w', inl error)
    end.

(** [try { m } catch (error) { handler }]: the handler runs in the world the
    failing computation left behind; nothing is undone. *)
Definition try_catch {Store A} (m : Js Store A) (handler : JsValue -> Js Store A)
  : Js Store A :=
  fun w =>
    match m w with
    | (w', inr a) => (w', inr a)
    | (w', inl error) => handler error w'
    end.

Definition console_error {Store} (text : string) (value : JsValue) : Js Store unit :=
  fun w => (mkWorld (console w ++ [mkLog text value]) (store w), inr tt).

(** Awaiting a host promise that is already settled. *)
Definition await {Store A} (settled : JsValue + A) : Js Store A :=
  fun w => (w, settled).

(** A collaborator that reads and writes the store only. *)
Definition on_store {Store A} (op : Store -> Store * (JsValue + A)) : Js Store A :=
  fun w =>
    let '(s', r) := op (store w) in (mkWorld (console w) s', r).

Declare Scope js_scope.
Delimit Scope js_scope with js.
Notation "x <- m ;; k" := (bind m (fun x => k))
  (at level 61, m at next level, right associativity) : js_scope.
Notation "m ;;; k" := (bind m (fun _ => k))
  (at level 61, right associativity) : js_scope.
Local Open Scope js_scope.

(** [for (const x of xs) { body }] where the body updates a local object
    [acc] in place. *)
Fixpoint for_of {Store A R} (xs : list A) (body : A -> R -> Js Store R) (acc : R)
  : Js Store R :=
  match xs with
  | [] => ret acc
  | x :: rest => acc' <- body x acc ;; for_of rest body acc'
  end.

(** ** services/TauriService.ts *)

Module TauriService.

(** An entry returned by [window.__TAURI__.fs.readDir]. *)
Record DirEntry : Type := mkEntry {
  entry_name : string;
  entry_path : string;
  isFile : bool
}.

(** Browser File System Access handles.  A file handle resolves [getFile()]
    to a [File] or rejects; a directory handle hands out an asynchronous
    iterator from [values()], which yields handles and then either finishes
    or throws. *)
Inductive FileSystemHandle : Type :=
| FileSystemFileHandle (name : string) (getFile : JsValue + File)
| FileSystemDirectoryHandle (name : string) (values : AsyncIterator)
with AsyncIterator : Type :=
| IterDone
| IterThrow (error : JsValue)
| IterYield (entry : FileSystemHandle) (next : AsyncIterator).

Inductive HandleKind : Type := KindFile | KindDirectory.

Definition kind (h : FileSystemHandle) : HandleKind :=
  match h with
  | FileSystemFileHandle _ _ => KindFile
  | FileSystemDirectoryHandle _ _ => KindDirectory
  end.

Definition handle_name (h : FileSystemHandle) : string :=
  match h with
  | FileSystemFileHandle n _ => n
  | FileSystemDirectoryHandle n _ => n
  end.

Definition is_file_kind (h : FileSystemHandle) : bool :=
  match kind h with KindFile => true | KindDirectory => false end.

(** A directory handle as the picker returns it. *)
Record DirectoryHandle : Type := mkDirHandle {
  dir_name : string;
  dir_values : AsyncIterator
}.

(** [string | FileSystemDirectoryHandle] *)
Inductive DirectoryRef : Type :=
| DirPath (path : string)
| DirHandle (handle : DirectoryHandle).

(** What [dialog.open] resolves to: [string | string[] | null]. *)
Inductive DialogResult : Type :=
| DialogNull
| DialogString (path : string)
| DialogArray (paths : list string).

(** [window.__TAURI__]: the dialog and file-system plugins of the desktop
    shell.  [readDir] receives whatever value the caller passes. *)
Record TauriApi : Type := mkTauri {
  dialog_open : JsValue + DialogResult;
  fs_readDir : DirectoryRef -> JsValue + list DirEntry;
  fs_readFile : string -> JsValue + list Byte.byte
}.

(** [window]: [__TAURI__] and [showDirectoryPicker] are both optional. *)
Record Window : Type := mkWindow {
  __TAURI__ : option TauriApi;
  showDirectoryPicker : option (JsValue + DirectoryHandle)
}.

(** The global scope: [window] itself may be undefined. *)
Definition Global : Type := option Window.

Definition isTauri (g : Global) : bool :=
  match g with
  | Some window =>
      match __TAURI__ window with Some _ => true | None => false end
  | None => false
  end.

(** Truthiness of a string: only the empty string is falsy. *)
Definition truthy (s : string) : bool := negb (String.eqb s "").

(** [value || null] for a string or [undefined] *)
Definition or_null (value : option string) : option DirectoryRef :=
  match value with
  | Some s => if truthy s then Some (DirPath s) else None
  | None => None
  end.

Definition TypeError (message : string) : JsValue := JsError "TypeError" message.
Definition ReferenceError (message : string) : JsValue :=
  JsError "ReferenceError" message.

Definition is_markdown_name (name : string) : bool :=
  endsWith name ".md" || endsWith name ".markdown".

Section Functions.
Context {Store : Type}.

(** [window.__TAURI__!]: the assertion is erased at run time, so a missing
    object only shows when a property is read from it. *)
Definition window_TAURI (g : Global) : Js Store TauriApi :=
  match g with
  | None => throw (ReferenceError "window is not defined")
  | Some window =>
      match __TAURI__ window with
      | Some tauri => ret tauri
      | None => throw (TypeError "Cannot read properties of undefined")
      end
  end.

(** [window.showDirectoryPicker()] *)
Definition window_showDirectoryPicker (g : Global) : Js Store DirectoryHandle :=
  match g with
  | None => throw (ReferenceError "window is not defined")
  | Some window =>
      match showDirectoryPicker window with
      | Some picked => await picked
      | None => throw (TypeError "window.showDirectoryPicker is not a function")
      end
  end.

Definition selectDirectory (g : Global) : Js Store (option DirectoryRef) :=
  if isTauri g then
    tauri <- window_TAURI g ;;
    result <- await (dialog_open tauri) ;;
    match result with
    | DialogArray paths => ret (or_null (nth_error paths 0))
    | DialogString path => ret (or_null (Some path))
    | DialogNull => ret None
    end
  else
    try_catch
      (dirHandle <- window_showDirectoryPicker g ;;
       ret (Some (DirHandle dirHandle)))
      (fun error =>
         (if instanceof_Error error
             && negb (String.eqb (error_name error) "AbortError")
          then console_error "File System Access API not supported:" error
          else ret tt) ;;;
         ret None).

(** Body of the loop over [readDir]'s entries (Tauri mode). *)
Definition tauri_body (tauri : TauriApi) (entry : DirEntry) (markdownFiles : list File)
  : Js Store (list File) :=
  if isFile entry && is_markdown_name (entry_name entry) then
    try_catch
      (bytes <- await (fs_readFile tauri (entry_path entry)) ;;
       let file := new_File bytes (entry_name entry) "text/markdown" in
       ret (markdownFiles ++ [file]))
      (fun error =>
         console_error ("Failed to read file " ++ entry_path entry ++ ":")%string error ;;;
         ret markdownFiles)
  else ret markdownFiles.

(** [(entry as FileSystemFileHandle).getFile()] *)
Definition getFile (entry : FileSystemHandle) : Js Store File :=
  match entry with
  | FileSystemFileHandle _ file => await file
  | FileSystemDirectoryHandle _ _ =>
      throw (TypeError "fileHandle.getFile is not a function")
  end.

(** Body of the loop over the handle's entries (browser mode). *)
Definition browser_body (entry : FileSystemHandle) (markdownFiles : list File)
  : Js Store (list File) :=
  if is_file_kind entry && is_markdown_name (handle_name entry) then
    try_catch
      (file <- getFile entry ;;
       if negb (truthy (file_type file)) && endsWith (handle_name entry) ".md" then
         let fixedFile :=
           new_File (file_bytes file) (handle_name entry) "text/markdown" in
         ret (markdownFiles ++ [fixedFile])
       else ret (markdownFiles ++ [file]))
      (fun error =>
         console_error ("Failed to read file " ++ handle_name entry ++ ":")%string error ;;;
         ret markdownFiles)
  else ret markdownFiles.

(** [try { for await (const entry of dirHandle.values()) { ... } }
     catch (error) { console.error('Failed to read directory:', error) }].
    The array [markdownFiles] is filled in place, so what was pushed before
    the iterator throws is still there after the catch. *)
Fixpoint for_await (it : AsyncIterator) (markdownFiles : list File)
  : Js Store (list File) :=
  match it with
  | IterDone => ret markdownFiles
  | IterThrow error =>
      console_error "Failed to read directory:" error ;;; ret markdownFiles
  | IterYield entry next =>
      markdownFiles' <- browser_body entry markdownFiles ;;
      for_await next markdownFiles'
  end.

Definition readMarkdownFilesFromDirectory (g : Global) (dirPath : DirectoryRef)
  : Js Store (list File) :=
  if isTauri g then
    tauri <- window_TAURI g ;;
    entries <- await (fs_readDir tauri dirPath) ;;
    for_of entries (tauri_body tauri) []
  else
    match dirPath with
    | DirHandle dirHandle => for_await (dir_values dirHandle) []
    | DirPath _ =>
        (* a string has no [values] method: the call throws inside the try *)
        console_error "Failed to read directory:"
                      (TypeError "dirHandle.values is not a function") ;;;
        ret []
    end.

End Functions.
End TauriService.

(** ** services/BookScanner.ts *)

Module BookScanner.
Import TauriService.

Record ScanError : Type := mkScanError {
  filename : string;
  error : string
}.

Record ScanResult : Type := mkScanResult {
  total : nat;
  added : nat;
  skipped : nat;
  errors : list ScanError
}.

(** [result.total = n] *)
Definition set_total (n : nat) (r : ScanResult) : ScanResult :=
  mkScanResult n (added r) (skipped r) (errors r).

(** [result.added++] *)
Definition incr_added (r : ScanResult) : ScanResult :=
  mkScanResult (total r) (S (added r)) (skipped r) (errors r).

(** [result.skipped++] *)
Definition incr_skipped (r : ScanResult) : ScanResult :=
  mkScanResult (total r) (added r) (S (skipped r)) (errors r).

(** [result.errors.push(e)] *)
Definition push_error (e : ScanError) (r : ScanResult) : ScanResult :=
  mkScanResult (total r) (added r) (skipped r) (errors r ++ [e]).

(** [error instanceof Error && error.message === 'Book already exists'] *)
Definition is_already_exists (error : JsValue) : bool :=
  instanceof_Error error && String.eqb (error_message error) "Book already exists".

Section Scanner.
Context {Store Book : Type}.

(** The collaborators imported from [./ServerUpload] and [./DB]; their
    sources are not part of this development, so the scanner is defined over
    any implementation of them. *)
Variable handleFileUpload : File -> Js Store Book.
Variable db_addBook : Book -> Js Store string.
Variable db_addReadingProgress : string -> Js Store unit.

Definition addBookFromFile (file : File) : Js Store (string * Book) :=
  try_catch
    (book <- handleFileUpload file ;;
     id <- db_addBook book ;;
     db_addReadingProgress id ;;;
     ret (id, book))
    (fun error =>
       if instanceof_Error error then throw error
       else throw (new_Error (String_ error))).

Definition scanDirectory (g : Global) (directory : DirectoryRef) : Js Store ScanResult :=
  let result := mkScanResult 0 0 0 [] in
  try_catch
    (files <- readMarkdownFilesFromDirectory g directory ;;
     let result := set_total (List.length files) result in
     for_of files
       (fun file result =>
          try_catch
            (addBookFromFile file ;;;
             ret (incr_added result))
            (fun error =>
               if is_already_exists error then ret (incr_skipped result)
               else
                 ret (push_error
                        (mkScanError (file_name file) (message_or_String error))
                        result)))
       result)
    (fun error =>
       throw (new_Error
                ("Failed to scan directory: " ++ message_or_String error)%string)).

Definition addBooksFromFiles (files : list File) : Js Store ScanResult :=
  let result := mkScanResult (List.length files) 0 0 [] in
  for_of files
    (fun file result =>
       try_catch
         (addBookFromFile file ;;;
          ret (incr_added result))
         (fun error =>
            if is_already_exists error then ret (incr_skipped result)
            else
              ret (push_error
                     (mkScanError (file_name file) (message_or_String error))
                     result)))
    result.

End Scanner.
End BookScanner.

(** ** app/components/BookDirectoryScanner/index.tsx *)

Module BookDirectoryScanner.
Import TauriService BookScanner.

(** The messages of the [message] API the handler uses. *)
Inductive Level : Type := Loading | Warning | Success | Info | Failure.

Record Message : Type := mkMessage {
  level : Level;
  content : string
}.

(** What the component owns: the [isScanning] state, the messages it has
    displayed so far (oldest first), and how many loading indicators are
    open (one opened with duration [0] stays until its closer is called). *)
Record UiState : Type := mkUi {
  isScanning : bool;
  displayed : list Message;
  loadingOpen : nat
}.

(** Rendering of a counter inside a template literal. *)
Definition Number_toString (n : nat) : string :=
  NilEmpty.string_of_uint (Nat.to_uint n).

(** [!selectedDir]: [null] and the empty string are falsy, a handle and any
    other string are not. *)
Definition falsy (selectedDir : option DirectoryRef) : bool :=
  match selectedDir with
  | None => true
  | Some (DirPath path) => negb (truthy path)
  | Some (DirHandle _) => false
  end.

(** [try { m } finally { cleanup }] *)
Definition try_finally {Store A} (m : Js Store A) (cleanup : Js Store unit)
  : Js Store A :=
  fun w =>
    let '(w1, outcome) := m w in
    match cleanup w1 with
    | (w2, inr _) => (w2, outcome)
    | (w2, inl error) => (w2, inl error)
    end.

Section Component.
Context {Store Book : Type}.

(** The services of the library run on the store alone; the component runs
    them in a world that also holds its own state. *)
Definition zoom {A} (m : Js Store A) : Js (UiState * Store) A :=
  fun w =>
    let '(w', outcome) := m (mkWorld (console w) (snd (store w))) in
    (mkWorld (console w') (fst (store w), store w'), outcome).

Definition update_ui (f : UiState -> UiState) : Js (UiState * Store) unit :=
  fun w => (mkWorld (console w) (f (fst (store w)), snd (store w)), inr tt).

(** [setIsScanning(value)] *)
Definition setIsScanning (value : bool) : Js (UiState * Store) unit :=
  update_ui (fun ui => mkUi value (displayed ui) (loadingOpen ui)).

(** [message.warning(text)], [message.success(text)], ... *)
Definition message_open (kind : Level) (text : string) : Js (UiState * Store) unit :=
  update_ui (fun ui =>
    mkUi (isScanning ui) (displayed ui ++ [mkMessage kind text]) (loadingOpen ui)).

(** [message.loading(text, 0)]: displays the indicator and returns the
    function that closes it. *)
Definition message_loading (text : string)
  : Js (UiState * Store) (Js (UiState * Store) unit) :=
  update_ui (fun ui =>
    mkUi (isScanning ui) (displayed ui ++ [mkMessage Loading text])
         (S (loadingOpen ui))) ;;;
  ret (update_ui (fun ui =>
         mkUi (isScanning ui) (displayed ui) (Nat.pred (loadingOpen ui)))).

Variable handleFileUpload : File -> Js Store Book.
Variable db_addBook : Book -> Js Store string.
Variable db_addReadingProgress : string -> Js Store unit.

(** [BookScanner.scanDirectory] as the component calls it. *)
Definition BookScanner_scanDirectory (g : Global) (directory : DirectoryRef)
  : Js (UiState * Store) ScanResult :=
  BookScanner.scanDirectory
    (fun file => zoom (handleFileUpload file))
    (fun book => zoom (db_addBook book))
    (fun id => zoom (db_addReadingProgress id))
    g directory.

Definition handleScanDirectory (g : Global) : Js (UiState * Store) unit :=
  try_finally
    (try_catch
       (setIsScanning true ;;;
        selectedDir <- selectDirectory g ;;
        if falsy selectedDir then ret tt
        else
          loadingMessage <- message_loading "Scanning directory for books..." ;;
          try_catch
            (result <-
               match selectedDir with
               | Some directory => BookScanner_scanDirectory g directory
               | None => throw (TypeError "directory is null") (* not reached: null is falsy *)
               end ;;
             loadingMessage ;;;
             if Nat.ltb 0 (List.length (errors result)) then
               message_open Warning
                 ("Added " ++ Number_toString (added result) ++ " books, "
                  ++ Number_toString (skipped result) ++ " skipped, "
                  ++ Number_toString (List.length (errors result))
                  ++ " errors")%string
             else if Nat.ltb 0 (added result) || Nat.ltb 0 (skipped result) then
               message_open Success
                 ("Added " ++ Number_toString (added result) ++ " books, "
                  ++ Number_toString (skipped result)
                  ++ " already in library")%string
             else
               message_open Info "No books found in the selected directory")
            (fun error => loadingMessage ;;; throw error))
       (fun error =>
          console_error "Failed to scan directory:" error ;;;
          message_open Failure
            (if instanceof_Error error then error_message error
             else "Failed to scan directory")))
    (setIsScanning false).

End Component.
End BookDirectoryScanner.

(** ** The ingestion collaborators ([./ServerUpload], [./DB]) *)

Module Library.

Section Collaborators.

(** The structured record the markdown parser produces, the hashing
    primitive and the parser itself are external to the library. *)
Context {Parsed : Type}.
Variable fingerprint : list Byte.byte -> string.
Variable parse : File -> JsValue + Parsed.

(** Modelled from the spec: the book record of [@/types/book], which is not
    among the sources.  A structured book record carrying the deterministic
    content fingerprint of the file it was parsed from. *)
Record Book : Type := mkBook {
  fileHash : string;
  parsed : Parsed
}.

(** Modelled from the spec: the persistent library store of [./DB], which is
    not among the sources.  It holds the book records under their generated
    identifiers and the reading-progress records; a write to either table
    may fail (store write failure), which is part of the state of the
    store. *)
Record Store : Type := mkStore {
  books : list (string * Book);
  readingProgress : list string;
  nextId : nat;
  bookWriteFailure : option JsValue;
  progressWriteFailure : option JsValue
}.

(** Modelled from the spec: identifier generation of the store, which is not
    among the sources.  Identifiers are generated, one per stored record. *)
Definition generateId (n : nat) : string :=
  ("book-" ++ NilEmpty.string_of_uint (Nat.to_uint n))%string.

(** Modelled from the spec: the lookup by fingerprint of [./DB], which is not
    among the sources. *)
Definition hasFingerprint (hash : string) (s : Store) : bool :=
  existsb (fun row => String.eqb (fileHash (snd row)) hash) (books s).

(** Modelled from the spec: [handleFileUpload] of [./ServerUpload], which is
    not among the sources.  Steps (a) and (b) of the workflow: compute the
    deterministic content fingerprint of the file bytes, then hand the file
    to the parsing collaborator; malformed input, an unknown format and a
    breach of the size limit are failures of that collaborator.  Read-only. *)
Definition handleFileUpload (file : File) : Js Store Book :=
  let hash := fingerprint (file_bytes file) in
  content <- await (parse file) ;;
  ret (mkBook hash content).

(** Modelled from the spec: [db.addBook] of [./DB], which is not among the
    sources.  Steps (c) and (d): if a record with the same fingerprint
    exists, fail with the duplicate error and write nothing; otherwise
    persist the record and return its generated identifier. *)
Definition addBook (book : Book) : Js Store string :=
  on_store (fun s =>
    if hasFingerprint (fileHash book) s then
      (s, inl (new_Error "Book already exists"))
    else
      match bookWriteFailure s with
      | Some failure => (s, inl failure)
      | None =>
          let id := generateId (nextId s) in
          (mkStore (books s ++ [(id, book)]) (readingProgress s) (S (nextId s))
                   (bookWriteFailure s) (progressWriteFailure s),
           inr id)
      end).

(** Modelled from the spec: [db.addReadingProgress] of [./DB], which is not
    among the sources.  Step (e): initialise a reading-progress record for
    the identifier; a failed write leaves the store as it was. *)
Definition addReadingProgress (id : string) : Js Store unit :=
  on_store (fun s =>
    match progressWriteFailure s with
    | Some failure => (s, inl failure)
    | None =>
        (mkStore (books s) (readingProgress s ++ [id]) (nextId s)
                 (bookWriteFailure s) (progressWriteFailure s),
         inr tt)
    end).

(** The scanner of [BookScanner.ts] over these collaborators. *)
Definition addBookFromFile : File -> Js Store (string * Book) :=
  BookScanner.addBookFromFile handleFileUpload addBook addReadingProgress.

Definition scanDirectory
  : TauriService.Global -> TauriService.DirectoryRef -> Js Store BookScanner.ScanResult :=
  BookScanner.scanDirectory handleFileUpload addBook addReadingProgress.

Definition addBooksFromFiles : list File -> Js Store BookScanner.ScanResult :=
  BookScanner.addBooksFromFiles handleFileUpload addBook addReadingProgress.

(** [BookScanner.bookExists(hash)]:
    [!!(await db.books.where('fileHash').equals(hash).first())] *)
Definition bookExists (hash : string) : Js Store bool :=
  fun w => (w, inr (hasFingerprint hash (store w))).

End Collaborators.

Arguments Book : clear implicits.
Arguments Store : clear implicits.

End Library.

(** ** Notions used to state the properties *)

(** What [addBookFromFile] rethrows for a caught value: an [Error] instance
    as it is, anything else wrapped by [new Error(String(value))]. *)
Definition rethrown (value : JsValue) : JsValue :=
  if instanceof_Error value then value else new_Error (String_ value).

(** The entries an iterator yields before it finishes or throws. *)
Fixpoint yielded (it : TauriService.AsyncIterator) : list TauriService.FileSystemHandle :=
  match it with
  | TauriService.IterDone => []
  | TauriService.IterThrow _ => []
  | TauriService.IterYield entry next => entry :: yielded next
  end.

(** An iterator that yields the given entries and then finishes. *)
Fixpoint iterate (entries : list TauriService.FileSystemHandle) : TauriService.AsyncIterator :=
  match entries with
  | [] => TauriService.IterDone
  | entry :: rest => TauriService.IterYield entry (iterate rest)
  end.

(** [name] ends with the literal suffix [suffix]. *)
Definition has_suffix (name suffix : string) : Prop :=
  exists stem : string, name = (stem ++ suffix)%string.

(** What one entry of a [readDir] listing contributes to the candidates. *)
Definition tauri_emits (tauri : TauriService.TauriApi) (entry : TauriService.DirEntry)
  : list File :=
  if TauriService.isFile entry
     && TauriService.is_markdown_name (TauriService.entry_name entry)
  then
    match TauriService.fs_readFile tauri (TauriService.entry_path entry) with
    | inr bytes => [mkFile (TauriService.entry_name entry) "text/markdown" bytes]
    | inl _ => []
    end
  else [].

(** What one yielded handle contributes to the candidates. *)
Definition browser_emits (entry : TauriService.FileSystemHandle) : list File :=
  match entry with
  | TauriService.FileSystemFileHandle name (inr file) =>
      if TauriService.is_markdown_name name then
        [ if String.eqb (file_type file) "" && endsWith name ".md"
          then mkFile name "text/markdown" (file_bytes file)
          else file ]
      else []
  | _ => []
  end.

(** The user cancels the directory picker, or the host has no directory
    capability.  The native dialog resolves to [null] on cancel; the
    browser's picker rejects (with an [AbortError] on cancel); without the
    File System Access API there is no picker to call. *)
Inductive declined : TauriService.Global -> Prop :=
| declined_dialog (tauri : TauriService.TauriApi) picker :
    TauriService.dialog_open tauri = inr TauriService.DialogNull ->
    declined (Some (TauriService.mkWindow (Some tauri) picker))
| declined_picker (error : JsValue) :
    declined (Some (TauriService.mkWindow None (Some (inl error))))
| capability_absent :
    declined (Some (TauriService.mkWindow None None))
| window_absent :
    declined None.

Module Rescan.
Section Answers.
Context {Parsed : Type}.
Variable fingerprint : list Byte.byte -> string.
Variable parse : File -> JsValue + Parsed.

(** The library answers the ingestion of [file] with the duplicate signal:
    either the parser itself fails with it, or the fingerprint of the file is
    in the store, or the write that would add the book fails with it. *)
Definition skips (file : File) (s : Library.Store Parsed) : bool :=
  match parse file with
  | inl value => BookScanner.is_already_exists (rethrown value)
  | inr _ =>
      Library.hasFingerprint (fingerprint (file_bytes file)) s
      || match Library.bookWriteFailure s with
         | Some value => BookScanner.is_already_exists (rethrown value)
         | None => false
         end
  end.

(** One store is reachable from another by ingestions: books are only added
    and the failure condition of the book table stays as it is. *)
Definition grows (s s' : Library.Store Parsed) : Prop :=
  (forall hash,
      Library.hasFingerprint hash s = true -> Library.hasFingerprint hash s' = true) /\
  Library.bookWriteFailure s' = Library.bookWriteFailure s.

End Answers.
End Rescan.

(** Sum of two summaries of consecutive parts of one batch. *)
Definition combine (r1 r2 : BookScanner.ScanResult) : BookScanner.ScanResult :=
  BookScanner.mkScanResult
    (BookScanner.total r1 + BookScanner.total r2)
    (BookScanner.added r1 + BookScanner.added r2)
    (BookScanner.skipped r1 + BookScanner.skipped r2)
    (BookScanner.errors r1 ++ BookScanner.errors r2).

(** The Importing phase, read as a classification of outcomes: each file is
    ingested in turn and the way its ingestion ended is recorded in the
    summary. *)
Module Importing.
Section Phase.
Context {Store Book : Type}.
Variable handleFileUpload : File -> Js Store Book.
Variable db_addBook : Book -> Js Store string.
Variable db_addReadingProgress : string -> Js Store unit.

Definition record_outcome (file : File) (outcome : JsValue + (string * Book))
    (result : BookScanner.ScanResult) : BookScanner.ScanResult :=
  match outcome with
  | inr _ => BookScanner.incr_added result
  | inl error =>
      if BookScanner.is_already_exists error then BookScanner.incr_skipped result
      else
        BookScanner.push_error
          (BookScanner.mkScanError (file_name file) (error_message error)) result
  end.

Definition import_file (file : File) (result : BookScanner.ScanResult)
  : Js Store BookScanner.ScanResult :=
  fun w =>
    let '(w', outcome) :=
      BookScanner.addBookFromFile handleFileUpload db_addBook db_addReadingProgress
                                  file w in
    (w', inr (record_outcome file outcome result)).

Definition importing (files : list File) (result : BookScanner.ScanResult)
  : Js Store BookScanner.ScanResult :=
  for_of files import_file result.

End Phase.
End Importing.

(** ** A small library and two hosts, for concrete runs *)

Module Examples.
Import TauriService BookScanner.

(** A stand-in for the hashing primitive: the content itself. *)
Definition fingerprint (bytes : list Byte.byte) : string :=
  string_of_list_byte bytes.

(** A stand-in for the parser: empty content-types and empty documents are
    rejected, the title is the file name. *)
Definition parse (file : File) : JsValue + string :=
  if String.eqb (file_type file) "" then inl (new_Error "Unsupported file format")
  else
    match file_bytes file with
    | [] => inl (new_Error "Invalid markdown")
    | _ => inr (file_name file)
    end.

Definition emptyStore : Library.Store string :=
  Library.mkStore [] [] 0 None None.

Definition start : World (Library.Store string) := mkWorld [] emptyStore.



Definition scanDirectory := Library.scanDirectory fingerprint parse.
Definition addBooksFromFiles := Library.addBooksFromFiles fingerprint parse.
Definition addBookFromFile := Library.addBookFromFile fingerprint parse.

Definition md (name content : string) : File :=
  mkFile name "text/markdown" (list_byte_of_string content).

Definition alpha : File := md "a.md" "# Alpha".
Definition beta : File := md "b.markdown" "# Beta".
Definition broken : File := md "c.md" "".
Definition gamma : File := md "d.md" "# Gamma".
Definition delta : File := md "e.md" "# Delta".

(** A browser window (no [__TAURI__]) and a directory handle. *)
Definition browser : Global := Some (mkWindow None None).

Definition notes : File := mkFile "notes.md" "" (list_byte_of_string "# Notes").

Definition shelf : DirectoryHandle :=
  mkDirHandle "shelf"
    (iterate
       [ FileSystemFileHandle "a.md" (inr alpha);
         FileSystemFileHandle "notes.md" (inr notes);
         FileSystemFileHandle "c.txt" (inr (mkFile "c.txt" "text/plain" []));
         FileSystemFileHandle "d.MD" (inr (mkFile "d.MD" "" []));
         FileSystemDirectoryHandle "sub"
           (iterate [FileSystemFileHandle "inner.md" (inr beta)]);
         FileSystemFileHandle "b.markdown" (inr beta) ]).

(** The four entries of the extension-filter example. *)
Definition four : DirectoryHandle :=
  mkDirHandle "four"
    (iterate
       [ FileSystemFileHandle "a.md" (inr alpha);
         FileSystemFileHandle "b.markdown" (inr beta);
         FileSystemFileHandle "c.txt" (inr (mkFile "c.txt" "text/plain" []));
         FileSystemFileHandle "d.MD" (inr (mkFile "d.MD" "text/markdown" [])) ]).

(** A directory handle that stopped being readable after it was picked. *)
Definition vanished : DirectoryHandle :=
  mkDirHandle "gone" (IterThrow (JsError "NotFoundError" "directory not found")).

(** A desktop window: one directory [/books] with four entries, one of which
    cannot be read; every other path fails to list. *)
Definition desktopApi : TauriApi :=
  mkTauri
    (inr DialogNull)
    (fun dir =>
       match dir with
       | DirPath "/books" =>
           inr [ mkEntry "a.md" "/books/a.md" true;
                 mkEntry "locked.md" "/books/locked.md" true;
                 mkEntry "sub.md" "/books/sub.md" false;
                 mkEntry "b.markdown" "/books/b.markdown" true ]
       | _ => inl (new_Error "No such file or directory")
       end)
    (fun path =>
       if String.eqb path "/books/a.md" then inr (list_byte_of_string "# Alpha")
       else if String.eqb path "/books/b.markdown" then inr (list_byte_of_string "# Beta")
       else inl (new_Error "Permission denied")).

Definition desktop : Global := Some (mkWindow (Some desktopApi) None).

(** A desktop directory whose only entry is an unreadable markdown file. *)
Definition lockedApi : TauriApi :=
  mkTauri
    (inr DialogNull)
    (fun _ => inr [mkEntry "a.md" "/vault/a.md" true])
    (fun _ => inl (new_Error "Permission denied")).

Definition lockedDesktop : Global := Some (mkWindow (Some lockedApi) None).

End Examples.

(** ** Further notions and runs *)

(** [xs] is [ys] with some elements left out, order kept. *)
Inductive subseq {A : Type} : list A -> list A -> Prop :=
| subseq_nil : subseq [] []
| subseq_skip (y : A) (xs ys : list A) : subseq xs ys -> subseq xs (y :: ys)
| subseq_keep (x : A) (xs ys : list A) : subseq xs ys -> subseq (x :: xs) (x :: ys).

(** Whether an iterator ends by throwing. *)
Fixpoint ends_throwing (it : TauriService.AsyncIterator) : bool :=
  match it with
  | TauriService.IterDone => false
  | TauriService.IterThrow _ => true
  | TauriService.IterYield _ next => ends_throwing next
  end.

(** Whether a yielded handle passes the test of the loop. *)
Definition matches (entry : TauriService.FileSystemHandle) : bool :=
  TauriService.is_file_kind entry
  && TauriService.is_markdown_name (TauriService.handle_name entry).

(** The message the handler displays for a summary. *)
Definition summary_message (result : BookScanner.ScanResult)
  : BookDirectoryScanner.Message :=
  let added := BookDirectoryScanner.Number_toString (BookScanner.added result) in
  let skipped := BookDirectoryScanner.Number_toString (BookScanner.skipped result) in
  let failed :=
    BookDirectoryScanner.Number_toString (List.length (BookScanner.errors result)) in
  if Nat.ltb 0 (List.length (BookScanner.errors result)) then
    BookDirectoryScanner.mkMessage BookDirectoryScanner.Warning
      ("Added " ++ added ++ " books, " ++ skipped ++ " skipped, " ++ failed
       ++ " errors")%string
  else if Nat.ltb 0 (BookScanner.added result) || Nat.ltb 0 (BookScanner.skipped result)
  then
    BookDirectoryScanner.mkMessage BookDirectoryScanner.Success
      ("Added " ++ added ++ " books, " ++ skipped ++ " already in library")%string
  else
    BookDirectoryScanner.mkMessage BookDirectoryScanner.Info
      "No books found in the selected directory".

Module Screen.
Import TauriService BookScanner BookDirectoryScanner.

(** The component over the small library of [Examples]. *)
Definition handleScanDirectory
  : Global -> Js (UiState * Library.Store string) unit :=
  BookDirectoryScanner.handleScanDirectory
    (Library.handleFileUpload Examples.fingerprint Examples.parse)
    Library.addBook Library.addReadingProgress.

Definition idle : World (UiState * Library.Store string) :=
  mkWorld [] (mkUi false [] 0, Examples.emptyStore).

(** A browser whose picker resolves to the directory [shelf]. *)
Definition browserPicking : Global :=
  Some (mkWindow None (Some (inr Examples.shelf))).

(** A browser whose user dismisses the picker. *)
Definition browserCancelled : Global :=
  Some (mkWindow None
          (Some (inl (JsError "AbortError" "The user aborted a request.")))).

(** A browser whose picker is blocked. *)
Definition browserBlocked : Global :=
  Some (mkWindow None
          (Some (inl (JsError "SecurityError" "Must be handling a user gesture.")))).

(** A desktop whose dialog resolves to the given path. *)
Definition desktopPicking (path : string) : Global :=
  Some (mkWindow
          (Some (mkTauri (inr (DialogString path))
                         (fs_readDir Examples.desktopApi)
                         (fs_readFile Examples.desktopApi)))
          None).

(** A desktop whose dialog plugin rejects. *)
Definition dialogBroken : Global :=
  Some (mkWindow
          (Some (mkTauri (inl (new_Error "dialog.open not allowed"))
                         (fs_readDir Examples.desktopApi)
                         (fs_readFile Examples.desktopApi)))
          None).

(** A handle whose iteration yields a readable and an unreadable markdown
    file and then throws. *)
Definition flaky : DirectoryHandle :=
  mkDirHandle "flaky"
    (IterYield (FileSystemFileHandle "a.md" (inr Examples.alpha))
       (IterYield (FileSystemFileHandle "b.md" (inl (new_Error "NotReadableError")))
          (IterThrow (new_Error "NotFoundError")))).

(** A handle with a markdown file of the long suffix and no content-type. *)
Definition untyped : DirectoryHandle :=
  mkDirHandle "untyped"
    (iterate [FileSystemFileHandle "long.markdown"
                (inr (mkFile "long.markdown" "" (list_byte_of_string "# Long")))]).

End Screen.

(** * Properties *)

(** ** Strings: [endsWith] is exact suffix matching *)

Lemma length_append (s t : string) :
  String.length (s ++ t)%string = String.length s + String.length t.
Proof.
  induction s as [|c s IH]; simpl; [reflexivity | now rewrite IH].
Qed.

Lemma substring_whole (t : string) : substring 0 (String.length t) t = t.
Proof.
  induction t as [|c t IH]; simpl; [reflexivity | now rewrite IH].
Qed.

Lemma substring_skip (p t : string) (m : nat) :
  substring (String.length p) m (p ++ t)%string = substring 0 m t.
Proof.
  induction p as [|c p IH]; simpl; [reflexivity | exact IH].
Qed.

Lemma substring_split (s : string) :
  forall k, k <= String.length s ->
    s = (substring 0 k s ++ substring k (String.length s - k) s)%string.
Proof.
  induction s as [|c s IH]; intros k Hk.
  - destruct k; reflexivity.
  - destruct k as [|k]; simpl.
    + now rewrite substring_whole.
    + simpl in Hk. f_equal. apply IH. lia.
Qed.

Lemma endsWith_spec (s suffix : string) :
  endsWith s suffix = true <-> has_suffix s suffix.
Proof.
  unfold endsWith, has_suffix. split.
  - destruct (Nat.leb_spec (String.length suffix) (String.length s)) as [Hle|Hlt];
      [|discriminate].
    intros Heq. apply String.eqb_eq in Heq.
    exists (substring 0 (String.length s - String.length suffix) s).
    pose proof (substring_split s (String.length s - String.length suffix)) as Hs.
    replace (String.length s - (String.length s - String.length suffix))
      with (String.length suffix) in Hs by lia.
    rewrite Heq in Hs. apply Hs. lia.
  - intros [stem ->]. rewrite length_append.
    destruct (Nat.leb_spec (String.length suffix)
                           (String.length stem + String.length suffix)) as [_|Hlt];
      [|lia].
    replace (String.length stem + String.length suffix - String.length suffix)
      with (String.length stem) by lia.
    rewrite substring_skip, substring_whole. apply String.eqb_refl.
Qed.

Lemma is_markdown_name_spec (name : string) :
  TauriService.is_markdown_name name = true <->
  has_suffix name ".md" \/ has_suffix name ".markdown".
Proof.
  unfold TauriService.is_markdown_name.
  rewrite orb_true_iff, !endsWith_spec. reflexivity.
Qed.

(** ** Computations: unfolding equations *)

Lemma for_of_app {Store A R} (body : A -> R -> Js Store R) (xs ys : list A) :
  forall acc w,
    for_of (xs ++ ys) body acc w =
    match for_of xs body acc w with
    | (w', inr acc') => for_of ys body acc' w'
    | (w', inl e) => (w', inl e)
    end.
Proof.
  induction xs as [|x xs IH]; intros acc w; simpl.
  - reflexivity.
  - unfold bind. destruct (body x acc w) as [w1 [e|acc1]]; [reflexivity|].
    apply IH.
Qed.

(** ** The scanner over arbitrary collaborators *)

Section ScannerProperties.
Import TauriService BookScanner Importing.
Context {Store Book : Type}.
Variable handleFileUpload : File -> Js Store Book.
Variable db_addBook : Book -> Js Store string.
Variable db_addReadingProgress : string -> Js Store unit.

Local Abbreviation addBookFromFile :=
  (BookScanner.addBookFromFile handleFileUpload db_addBook db_addReadingProgress).
Local Abbreviation scanDirectory :=
  (BookScanner.scanDirectory handleFileUpload db_addBook db_addReadingProgress).
Local Abbreviation addBooksFromFiles :=
  (BookScanner.addBooksFromFiles handleFileUpload db_addBook db_addReadingProgress).
Local Abbreviation import_file :=
  (Importing.import_file handleFileUpload db_addBook db_addReadingProgress).
Local Abbreviation importing :=
  (Importing.importing handleFileUpload db_addBook db_addReadingProgress).
Local Abbreviation steps file :=
  (book <- handleFileUpload file ;;
   id <- db_addBook book ;;
   db_addReadingProgress id ;;;
   ret (id, book)).

Lemma rethrown_is_Error (value : JsValue) : instanceof_Error (rethrown value) = true.
Proof. destruct value; reflexivity. Qed.

Lemma rethrown_message (value : JsValue) :
  error_message (rethrown value) = message_or_String value.
Proof. destruct value; reflexivity. Qed.

(** [addBookFromFile] returns what the three steps return and rethrows what
    they throw, in the world they leave. *)
Lemma addBookFromFile_steps (file : File) (w : World Store) :
  addBookFromFile file w =
  match steps file w with
  | (w', inr r) => (w', inr r)
  | (w', inl value) => (w', inl (rethrown value))
  end.
Proof.
  unfold BookScanner.addBookFromFile, try_catch.
  destruct (steps file w) as [w' [value|r]]; [|reflexivity].
  unfold rethrown. destruct (instanceof_Error value); reflexivity.
Qed.

Lemma addBookFromFile_throws_Error (file : File) (w w' : World Store) (e : JsValue) :
  addBookFromFile file w = (w', inl e) -> instanceof_Error e = true.
Proof.
  rewrite addBookFromFile_steps.
  destruct (steps file w) as [w1 [value|r]]; intros H; inversion H; subst.
  apply rethrown_is_Error.
Qed.

(** The loop body written in both functions records the outcome of the
    ingestion. *)
Lemma loop_body_records (file : File) (result : ScanResult) (w : World Store) :
  try_catch
    (addBookFromFile file ;;; ret (incr_added result))
    (fun error =>
       if is_already_exists error then ret (incr_skipped result)
       else ret (push_error (mkScanError (file_name file) (message_or_String error))
                            result)) w
  = import_file file result w.
Proof.
  unfold try_catch, bind, Importing.import_file.
  destruct (addBookFromFile file w) as [w' [e|r]] eqn:Hrun; simpl; [|reflexivity].
  pose proof (addBookFromFile_throws_Error _ _ _ _ Hrun) as HE.
  unfold message_or_String. rewrite HE.
  destruct (is_already_exists e); reflexivity.
Qed.

Lemma for_of_ext {A R} (body1 body2 : A -> R -> Js Store R) :
  (forall x acc w, body1 x acc w = body2 x acc w) ->
  forall xs acc w, for_of xs body1 acc w = for_of xs body2 acc w.
Proof.
  intros Hext xs. induction xs as [|x xs IH]; intros acc w; simpl; [reflexivity|].
  unfold bind. rewrite Hext.
  destruct (body2 x acc w) as [w' [e|acc']]; [reflexivity | apply IH].
Qed.

Lemma addBooksFromFiles_importing (files : list File) (w : World Store) :
  addBooksFromFiles files w =
  importing files (mkScanResult (List.length files) 0 0 []) w.
Proof.
  unfold BookScanner.addBooksFromFiles, Importing.importing.
  apply for_of_ext. intros; apply loop_body_records.
Qed.

(** Importing never throws. *)
Lemma importing_returns (files : list File) :
  forall result w, exists w' result', importing files result w = (w', inr result').
Proof.
  unfold Importing.importing.
  induction files as [|file files IH]; intros result w; simpl.
  - now exists w, result.
  - unfold bind, Importing.import_file at 1.
    destruct (addBookFromFile file w) as [w1 outcome]. apply IH.
Qed.

Lemma importing_cons (file : File) (files : list File) (result : ScanResult)
    (w : World Store) :
  importing (file :: files) result w =
  let '(w', outcome) := addBookFromFile file w in
  importing files (record_outcome file outcome result) w'.
Proof.
  unfold Importing.importing. simpl. unfold bind, Importing.import_file at 1.
  destruct (addBookFromFile file w) as [w1 outcome]. reflexivity.
Qed.

Lemma importing_app (files1 files2 : list File) (result : ScanResult)
    (w w1 : World Store) (result1 : ScanResult) :
  importing files1 result w = (w1, inr result1) ->
  importing (files1 ++ files2) result w = importing files2 result1 w1.
Proof.
  unfold Importing.importing. intros H. rewrite for_of_app, H. reflexivity.
Qed.

(** After the enumeration, [scanDirectory] is the Importing phase. *)
Lemma scanDirectory_importing (g : Global) (directory : DirectoryRef)
    (w w0 : World Store) (files : list File) :
  readMarkdownFilesFromDirectory g directory w = (w0, inr files) ->
  scanDirectory g directory w =
  importing files (mkScanResult (List.length files) 0 0 []) w0.
Proof.
  intros Hlist. unfold BookScanner.scanDirectory, try_catch, bind.
  rewrite Hlist. unfold set_total. simpl.
  rewrite (for_of_ext _ import_file) by (intros; apply loop_body_records).
  fold (importing files (mkScanResult (List.length files) 0 0 []) w0).
  destruct (importing_returns files (mkScanResult (List.length files) 0 0 []) w0)
    as (w' & r & ->).
  reflexivity.
Qed.

(** A failed enumeration is rethrown, wrapped. *)
Lemma scanDirectory_listing_fails (g : Global) (directory : DirectoryRef)
    (w w0 : World Store) (cause : JsValue) :
  readMarkdownFilesFromDirectory g directory w = (w0, inl cause) ->
  scanDirectory g directory w =
  (w0, inl (new_Error ("Failed to scan directory: " ++ message_or_String cause)%string)).
Proof.
  intros Hlist. unfold BookScanner.scanDirectory, try_catch, bind.
  rewrite Hlist. reflexivity.
Qed.

(** Running the loop from any summary adds, to that summary, what a batch
    of its own over the same files reports. *)
Lemma importing_delta (files : list File) :
  forall w, exists w' d,
    addBooksFromFiles files w = (w', inr d) /\
    total d = List.length files /\
    added d + skipped d + List.length (errors d) = List.length files /\
    forall result,
      importing files result w = (w', inr (set_total (total result) (combine result d))).
Proof.
  induction files as [|file files IH]; intros w.
  - exists w, (mkScanResult 0 0 0 []). repeat split.
    intros [t a s e]. unfold Importing.importing, set_total, combine. simpl.
    unfold ret. now rewrite !Nat.add_0_r, app_nil_r.
  - destruct (addBookFromFile file w) as [w1 outcome] eqn:Hfile.
    destruct (IH w1) as (w' & d & Hrun & Htotal & Hcount & Hfrom).
    assert (Hcons : forall result,
               importing (file :: files) result w =
               (w', inr (set_total (total result)
                           (combine result
                              (combine (record_outcome file outcome (mkScanResult 1 0 0 []))
                                       d))))).
    { intros [t a s e]. rewrite importing_cons, Hfile, Hfrom.
      unfold set_total, combine, record_outcome.
      destruct outcome as [err|ok]; [destruct (is_already_exists err)|]; simpl;
        do 2 f_equal; f_equal; try lia; rewrite <- ?app_assoc; reflexivity. }
    exists w', (combine (record_outcome file outcome (mkScanResult 1 0 0 [])) d).
    split; [|split; [|split]].
    + rewrite addBooksFromFiles_importing, Hcons.
      unfold set_total, combine, record_outcome.
      destruct outcome as [err|ok]; [destruct (is_already_exists err)|]; simpl;
        rewrite ?Htotal; reflexivity.
    + unfold combine, record_outcome.
      destruct outcome as [err|ok]; [destruct (is_already_exists err)|]; simpl;
        now rewrite Htotal.
    + unfold combine, record_outcome.
      destruct outcome as [err|ok]; [destruct (is_already_exists err)|]; simpl;
        rewrite ?length_app; simpl; lia.
    + exact Hcons.
Qed.

(** A batch over [files1 ++ files2] is the batch over [files1] followed, in
    the world it leaves, by the batch over [files2]. *)
Lemma addBooksFromFiles_app (files1 files2 : list File) (w w1 w2 : World Store)
    (r1 r2 : ScanResult) :
  addBooksFromFiles files1 w = (w1, inr r1) ->
  addBooksFromFiles files2 w1 = (w2, inr r2) ->
  addBooksFromFiles (files1 ++ files2) w = (w2, inr (combine r1 r2)).
Proof.
  intros H1 H2.
  destruct (importing_delta files1 w) as (v1 & d1 & Hrun1 & Ht1 & _ & Hfrom1).
  destruct (importing_delta files2 w1) as (v2 & d2 & Hrun2 & Ht2 & _ & Hfrom2).
  rewrite H1 in Hrun1. inversion Hrun1; subst v1 d1.
  rewrite H2 in Hrun2. inversion Hrun2; subst v2 d2.
  rewrite addBooksFromFiles_importing.
  rewrite (importing_app _ _ _ _ _ _ (Hfrom1 _)), Hfrom2.
  unfold set_total, combine. simpl. rewrite length_app, Ht1, Ht2. reflexivity.
Qed.

Lemma addBooksFromFiles_one (file : File) (w : World Store) :
  addBooksFromFiles [file] w =
  let '(w', outcome) := addBookFromFile file w in
  (w', inr (record_outcome file outcome (mkScanResult 1 0 0 []))).
Proof.
  rewrite addBooksFromFiles_importing, importing_cons.
  destruct (addBookFromFile file w) as [w' outcome]. reflexivity.
Qed.

(** C1. Partial-failure isolation.  When the ingestion of one file of a
    batch fails with anything but the duplicate signal, its file name and
    message are appended to the errors and the files after it are processed
    all the same, from the world the failure left: the summary of the batch
    is the summary of the files before, one error entry, and the summary of a
    batch over the files after.  This holds for [addBooksFromFiles] and for
    [scanDirectory] over the enumerated files. *)
Theorem partial_failure_isolation
    (before after : list File) (file : File) (w w1 w2 : World Store)
    (r1 : ScanResult) (e : JsValue) :
  addBooksFromFiles before w = (w1, inr r1) ->
  addBookFromFile file w1 = (w2, inl e) ->
  is_already_exists e = false ->
  exists w3 r3,
    addBooksFromFiles after w2 = (w3, inr r3) /\
    total r3 = List.length after /\
    addBooksFromFiles (before ++ file :: after) w =
      (w3, inr (combine r1
                  (combine (mkScanResult 1 0 0
                              [mkScanError (file_name file) (error_message e)])
                           r3))) /\
    forall g directory w0,
      readMarkdownFilesFromDirectory g directory w0 = (w, inr (before ++ file :: after)) ->
      scanDirectory g directory w0 =
        (w3, inr (combine r1
                    (combine (mkScanResult 1 0 0
                                [mkScanError (file_name file) (error_message e)])
                             r3))).
Proof.
  intros Hbefore Hfile Hother.
  destruct (importing_delta after w2) as (w3 & r3 & Hafter & Htotal & _).
  exists w3, r3. split; [exact Hafter|]. split; [exact Htotal|].
  assert (Hone : addBooksFromFiles [file] w1 =
                 (w2, inr (mkScanResult 1 0 0
                             [mkScanError (file_name file) (error_message e)]))).
  { rewrite addBooksFromFiles_one, Hfile. unfold record_outcome.
    rewrite Hother. reflexivity. }
  assert (Hall : addBooksFromFiles (before ++ file :: after) w =
                 (w3, inr (combine r1
                             (combine (mkScanResult 1 0 0
                                         [mkScanError (file_name file) (error_message e)])
                                      r3)))).
  { apply (addBooksFromFiles_app before (file :: after) w w1 w3); [exact Hbefore|].
    apply (addBooksFromFiles_app [file] after w1 w2 w3); assumption. }
  split; [exact Hall|].
  intros g directory w0 Hlist.
  rewrite (scanDirectory_importing _ _ _ _ _ Hlist), <- addBooksFromFiles_importing.
  exact Hall.
Qed.

(** C4. Per-file classification.  One more file at the end of a batch changes
    the summary in exactly one of three ways, decided by how its ingestion
    ends: success increments [added]; a failure carrying the duplicate signal
    increments [skipped] and leaves the errors alone; any other failure
    appends the file name and the message and leaves both counters alone.
    The message recorded is the one of the value the ingestion steps threw
    (its [message] if it is an [Error], its string rendering otherwise).
    This holds for [addBooksFromFiles] and for [scanDirectory] over the
    enumerated files. *)
Theorem per_file_classification
    (files : list File) (file : File) (w w1 : World Store) (r1 : ScanResult) :
  addBooksFromFiles files w = (w1, inr r1) ->
  (addBooksFromFiles (files ++ [file]) w =
     match addBookFromFile file w1 with
     | (w2, inr _) =>
         (w2, inr (mkScanResult (S (total r1)) (S (added r1)) (skipped r1) (errors r1)))
     | (w2, inl e) =>
         if is_already_exists e then
           (w2, inr (mkScanResult (S (total r1)) (added r1) (S (skipped r1)) (errors r1)))
         else
           (w2, inr (mkScanResult (S (total r1)) (added r1) (skipped r1)
                       (errors r1 ++ [mkScanError (file_name file) (error_message e)])))
     end) /\
  (forall g directory w0,
     readMarkdownFilesFromDirectory g directory w0 = (w, inr (files ++ [file])) ->
     scanDirectory g directory w0 = addBooksFromFiles (files ++ [file]) w) /\
  (forall w2 value,
     steps file w1 = (w2, inl value) ->
     addBookFromFile file w1 = (w2, inl (rethrown value)) /\
     error_message (rethrown value) = message_or_String value).
Proof.
  intros Hfiles. split; [|split].
  - destruct (addBookFromFile file w1) as [w2 outcome] eqn:Hfile.
    assert (Hone : addBooksFromFiles [file] w1 =
                   (w2, inr (record_outcome file outcome (mkScanResult 1 0 0 [])))).
    { rewrite addBooksFromFiles_one, Hfile. reflexivity. }
    rewrite (addBooksFromFiles_app files [file] w w1 w2 _ _ Hfiles Hone).
    unfold combine, record_outcome.
    destruct outcome as [e|ok]; [destruct (is_already_exists e)|]; simpl;
      do 2 f_equal; f_equal; try lia; rewrite ?app_nil_r; reflexivity.
  - intros g directory w0 Hlist.
    rewrite (scanDirectory_importing _ _ _ _ _ Hlist), <- addBooksFromFiles_importing.
    reflexivity.
  - intros w2 value Hsteps. split; [|apply rethrown_message].
    rewrite addBookFromFile_steps, Hsteps. reflexivity.
Qed.

(** C8. [addBooksFromFiles] is the Importing phase of a scan: once the
    enumeration has produced the candidate files, [scanDirectory] returns the
    summary (and leaves the world) that [addBooksFromFiles] produces for the
    same files. *)
Theorem addBooksFromFiles_is_importing_phase
    (g : Global) (directory : DirectoryRef) (w w0 : World Store) (files : list File) :
  readMarkdownFilesFromDirectory g directory w = (w0, inr files) ->
  scanDirectory g directory w = addBooksFromFiles files w0 /\
  exists w' r,
    addBooksFromFiles files w0 = (w', inr r) /\ total r = List.length files.
Proof.
  intros Hlist. split.
  - rewrite (scanDirectory_importing _ _ _ _ _ Hlist), <- addBooksFromFiles_importing.
    reflexivity.
  - destruct (importing_delta files w0) as (w' & r & Hrun & Htotal & _).
    now exists w', r.
Qed.

(** C10. Summary counter invariant: [addBooksFromFiles] always returns a
    summary, and every summary returned by it or by [scanDirectory] has
    [total = added + skipped + length errors]. *)
Theorem summary_counts_partition :
  (forall files w, exists w' r,
      addBooksFromFiles files w = (w', inr r) /\
      total r = added r + skipped r + List.length (errors r)) /\
  (forall g directory w w' r,
      scanDirectory g directory w = (w', inr r) ->
      total r = added r + skipped r + List.length (errors r)).
Proof.
  split.
  - intros files w.
    destruct (importing_delta files w) as (w' & r & Hrun & Htotal & Hcount & _).
    exists w', r. split; [exact Hrun | lia].
  - intros g directory w w' r Hscan.
    destruct (readMarkdownFilesFromDirectory g directory w) as [w0 [cause|files]] eqn:Hlist.
    + rewrite (scanDirectory_listing_fails _ _ _ _ _ Hlist) in Hscan. discriminate.
    + rewrite (scanDirectory_importing _ _ _ _ _ Hlist),
        <- addBooksFromFiles_importing in Hscan.
      destruct (importing_delta files w0) as (v & d & Hrun & Htotal & Hcount & _).
      rewrite Hrun in Hscan. inversion Hscan; subst. lia.
Qed.

End ScannerProperties.

(** ** The enumerator and the directory picker *)

Section EnumeratorProperties.
Import TauriService.
Context {Store : Type}.

Lemma yielded_iterate (entries : list FileSystemHandle) :
  yielded (iterate entries) = entries.
Proof.
  induction entries as [|entry entries IH]; simpl; [reflexivity | now rewrite IH].
Qed.

Lemma tauri_body_emits (tauri : TauriApi) (entry : DirEntry) (acc : list File)
    (w : World Store) :
  exists w',
    tauri_body tauri entry acc w = (w', inr (acc ++ tauri_emits tauri entry)) /\
    store w' = store w.
Proof.
  unfold tauri_body, tauri_emits.
  destruct (isFile entry && is_markdown_name (entry_name entry)).
  - unfold try_catch, bind, await.
    destruct (fs_readFile tauri (entry_path entry)) as [error|bytes].
    + eexists. split; [unfold console_error, ret; simpl; now rewrite app_nil_r|].
      reflexivity.
    + exists w. split; reflexivity.
  - exists w. unfold ret. now rewrite app_nil_r.
Qed.

Lemma tauri_loop_emits (tauri : TauriApi) (entries : list DirEntry) :
  forall acc (w : World Store), exists w',
    for_of entries (tauri_body tauri) acc w =
      (w', inr (acc ++ flat_map (tauri_emits tauri) entries)) /\
    store w' = store w.
Proof.
  induction entries as [|entry entries IH]; intros acc w; simpl.
  - exists w. unfold ret. now rewrite app_nil_r.
  - destruct (tauri_body_emits tauri entry acc w) as (w1 & Hbody & Hstore1).
    destruct (IH (acc ++ tauri_emits tauri entry) w1) as (w' & Hrest & Hstore').
    exists w'. unfold bind. rewrite Hbody, Hrest, <- app_assoc.
    split; [reflexivity | congruence].
Qed.

Lemma browser_body_emits (entry : FileSystemHandle) (acc : list File) (w : World Store) :
  exists w',
    browser_body entry acc w = (w', inr (acc ++ browser_emits entry)) /\
    store w' = store w.
Proof.
  unfold browser_body, browser_emits, is_file_kind.
  destruct entry as [name [error|file]|name values]; simpl.
  - destruct (is_markdown_name name); simpl.
    + eexists. unfold try_catch, bind, await, console_error, ret. simpl.
      rewrite app_nil_r. split; reflexivity.
    + exists w. unfold ret. now rewrite app_nil_r.
  - destruct (is_markdown_name name); simpl.
    + exists w. unfold try_catch, bind, await, truthy.
      rewrite negb_involutive.
      destruct (String.eqb (file_type file) "" && endsWith name ".md");
        split; reflexivity.
    + exists w. unfold ret. now rewrite app_nil_r.
  - exists w. unfold ret. now rewrite app_nil_r.
Qed.

Lemma for_await_emits (it : AsyncIterator) :
  forall acc (w : World Store), exists w',
    for_await it acc w = (w', inr (acc ++ flat_map browser_emits (yielded it))) /\
    store w' = store w.
Proof.
  induction it as [|error|entry next IH]; intros acc w; simpl.
  - exists w. unfold ret. now rewrite app_nil_r.
  - eexists. unfold bind, console_error, ret. simpl. rewrite app_nil_r.
    split; reflexivity.
  - destruct (browser_body_emits entry acc w) as (w1 & Hbody & Hstore1).
    destruct (IH (acc ++ browser_emits entry) w1) as (w' & Hrest & Hstore').
    exists w'. unfold bind. rewrite Hbody, Hrest, <- app_assoc.
    split; [reflexivity | congruence].
Qed.

Lemma isTauri_true (g : Global) :
  isTauri g = true ->
  exists tauri picker, g = Some (mkWindow (Some tauri) picker).
Proof.
  destruct g as [[[tauri|] picker]|]; simpl; try discriminate.
  intros _. now exists tauri, picker.
Qed.

(** Desktop mode: the listing decides. *)
Lemma readMarkdown_tauri (tauri : TauriApi) picker (dirPath : DirectoryRef)
    (w : World Store) :
  match fs_readDir tauri dirPath with
  | inl cause =>
      readMarkdownFilesFromDirectory (Some (mkWindow (Some tauri) picker)) dirPath w
      = (w, inl cause)
  | inr entries =>
      exists w',
        readMarkdownFilesFromDirectory (Some (mkWindow (Some tauri) picker)) dirPath w
        = (w', inr (flat_map (tauri_emits tauri) entries)) /\
        store w' = store w
  end.
Proof.
  unfold readMarkdownFilesFromDirectory. simpl. unfold bind, ret, await. simpl.
  destruct (fs_readDir tauri dirPath) as [cause|entries]; [reflexivity|].
  destruct (tauri_loop_emits tauri entries [] w) as (w' & Hloop & Hstore).
  exists w'. now rewrite Hloop.
Qed.

(** Browser mode: the enumeration never throws. *)
Lemma readMarkdown_browser (g : Global) (dirPath : DirectoryRef) (w : World Store) :
  isTauri g = false ->
  exists w',
    readMarkdownFilesFromDirectory g dirPath w =
      (w', inr match dirPath with
               | DirHandle handle => flat_map browser_emits (yielded (dir_values handle))
               | DirPath _ => []
               end) /\
    store w' = store w.
Proof.
  intros Hmode. unfold readMarkdownFilesFromDirectory. rewrite Hmode.
  destruct dirPath as [path|handle].
  - eexists. unfold bind, console_error, ret. simpl. split; reflexivity.
  - destruct (for_await_emits (dir_values handle) [] w) as (w' & Hloop & Hstore).
    exists w'. now rewrite Hloop.
Qed.

(** The outcome of an enumeration depends on the host and the directory
    only, and the store is left alone. *)
Lemma enumeration_fixed (g : Global) (dirPath : DirectoryRef) :
  exists outcome, forall w : World Store, exists w',
    readMarkdownFilesFromDirectory g dirPath w = (w', outcome) /\ store w' = store w.
Proof.
  destruct (isTauri g) eqn:Hmode.
  - destruct (isTauri_true g Hmode) as (tauri & picker & ->).
    destruct (fs_readDir tauri dirPath) as [cause|entries] eqn:Hdir.
    + exists (inl cause). intros w. exists w.
      pose proof (readMarkdown_tauri tauri picker dirPath w) as H.
      rewrite Hdir in H. now split.
    + exists (inr (flat_map (tauri_emits tauri) entries)). intros w.
      pose proof (readMarkdown_tauri tauri picker dirPath w) as H.
      now rewrite Hdir in H.
  - eexists. intros w. apply readMarkdown_browser. exact Hmode.
Qed.

Lemma in_tauri_emits (tauri : TauriApi) (entry : DirEntry) (f : File) :
  In f (tauri_emits tauri entry) <->
  isFile entry = true /\
  (has_suffix (entry_name entry) ".md" \/ has_suffix (entry_name entry) ".markdown") /\
  exists bytes,
    fs_readFile tauri (entry_path entry) = inr bytes /\
    f = mkFile (entry_name entry) "text/markdown" bytes.
Proof.
  unfold tauri_emits. rewrite <- is_markdown_name_spec.
  destruct (isFile entry); simpl;
    [destruct (is_markdown_name (entry_name entry)); simpl|].
  - destruct (fs_readFile tauri (entry_path entry)) as [error|bytes]; simpl.
    + split; [tauto|]. intros (_ & _ & bytes & Hread & _). discriminate.
    + split.
      * intros [<-|[]]. repeat split. now exists bytes.
      * intros (_ & _ & bytes' & Hread & ->). inversion Hread. now left.
  - split; [tauto|]. intros (_ & Hname & _). discriminate.
  - split; [tauto|]. intros (Hfile & _). discriminate.
Qed.

Lemma in_browser_emits (entry : FileSystemHandle) (f : File) :
  In f (browser_emits entry) <->
  exists name file,
    entry = FileSystemFileHandle name (inr file) /\
    (has_suffix name ".md" \/ has_suffix name ".markdown") /\
    f = if String.eqb (file_type file) "" && endsWith name ".md"
        then mkFile name "text/markdown" (file_bytes file)
        else file.
Proof.
  unfold browser_emits.
  destruct entry as [name [error|file]|name values].
  - split; [intros []|]. intros (n & x & Heq & _). discriminate.
  - destruct (is_markdown_name name) eqn:Hname; simpl.
    + split.
      * intros [<-|[]]. exists name, file. split; [reflexivity|].
        split; [now apply is_markdown_name_spec | reflexivity].
      * intros (n & x & Heq & _ & ->). inversion Heq; subst. now left.
    + split; [intros []|]. intros (n & x & Heq & Hsuffix & _).
      inversion Heq; subst. apply is_markdown_name_spec in Hsuffix. congruence.
  - split; [intros []|]. intros (n & x & Heq & _). discriminate.
Qed.

(** C5, amended.  Extension filter: a candidate is produced for an entry
    exactly when the entry is a regular file whose name ends with the literal
    suffix [.md] or [.markdown] and whose contents could be read.  Only the
    entries of the directory itself are looked at: a subdirectory contributes
    nothing, whatever it contains. *)
Theorem extension_filter_readable_entries :
  (forall (tauri : TauriApi) picker (dirPath : DirectoryRef) (entries : list DirEntry)
          (w : World Store),
      fs_readDir tauri dirPath = inr entries ->
      exists w' files,
        readMarkdownFilesFromDirectory (Some (mkWindow (Some tauri) picker)) dirPath w
        = (w', inr files) /\
        forall f,
          In f files <->
          exists entry bytes,
            In entry entries /\
            isFile entry = true /\
            (has_suffix (entry_name entry) ".md"
             \/ has_suffix (entry_name entry) ".markdown") /\
            fs_readFile tauri (entry_path entry) = inr bytes /\
            f = mkFile (entry_name entry) "text/markdown" bytes) /\
  (forall (g : Global) (handle : DirectoryHandle) (w : World Store),
      isTauri g = false ->
      exists w' files,
        readMarkdownFilesFromDirectory g (DirHandle handle) w = (w', inr files) /\
        forall f,
          In f files <->
          exists name file,
            In (FileSystemFileHandle name (inr file)) (yielded (dir_values handle)) /\
            (has_suffix name ".md" \/ has_suffix name ".markdown") /\
            f = if String.eqb (file_type file) "" && endsWith name ".md"
                then mkFile name "text/markdown" (file_bytes file)
                else file) /\
  (forall (g : Global) (name sub : string) (inner : AsyncIterator)
          (before after : list FileSystemHandle) (w : World Store),
      isTauri g = false ->
      snd (readMarkdownFilesFromDirectory g
             (DirHandle (mkDirHandle name
                (iterate (before ++ FileSystemDirectoryHandle sub inner :: after)))) w)
      = snd (readMarkdownFilesFromDirectory g
               (DirHandle (mkDirHandle name (iterate (before ++ after)))) w)).
Proof.
  split; [|split].
  - intros tauri picker dirPath entries w Hdir.
    pose proof (readMarkdown_tauri tauri picker dirPath w) as H.
    rewrite Hdir in H. destruct H as (w' & Hrun & _).
    exists w', (flat_map (tauri_emits tauri) entries). split; [exact Hrun|].
    intros f. rewrite in_flat_map. split.
    + intros (entry & Hin & Hemit). apply in_tauri_emits in Hemit.
      destruct Hemit as (Hfile & Hname & bytes & Hread & ->).
      now exists entry, bytes.
    + intros (entry & bytes & Hin & Hfile & Hname & Hread & ->).
      exists entry. split; [exact Hin|]. apply in_tauri_emits.
      repeat split; try assumption. now exists bytes.
  - intros g handle w Hmode.
    destruct (readMarkdown_browser g (DirHandle handle) w Hmode) as (w' & Hrun & _).
    exists w', (flat_map browser_emits (yielded (dir_values handle))).
    split; [exact Hrun|].
    intros f. rewrite in_flat_map. split.
    + intros (entry & Hin & Hemit). apply in_browser_emits in Hemit.
      destruct Hemit as (name & file & -> & Hname & ->).
      now exists name, file.
    + intros (name & file & Hin & Hname & ->).
      exists (FileSystemFileHandle name (inr file)). split; [exact Hin|].
      apply in_browser_emits. now exists name, file.
  - intros g name sub inner before after w Hmode.
    destruct (readMarkdown_browser g
                (DirHandle (mkDirHandle name
                   (iterate (before ++ FileSystemDirectoryHandle sub inner :: after))))
                w Hmode) as (w1 & -> & _).
    destruct (readMarkdown_browser g
                (DirHandle (mkDirHandle name (iterate (before ++ after))))
                w Hmode) as (w2 & -> & _).
    simpl. rewrite !yielded_iterate, !flat_map_app. reflexivity.
Qed.

(** C6. Content-type repair: in browser mode, a yielded file handle whose
    name ends in [.md] and whose file comes with an empty content-type is
    emitted as a candidate of that name and content with the content-type
    [text/markdown], at its place among the candidates. *)
Theorem content_type_repair
    (g : Global) (handle : DirectoryHandle) (w : World Store)
    (before after : list FileSystemHandle) (name : string) (file : File) :
  isTauri g = false ->
  yielded (dir_values handle) = before ++ FileSystemFileHandle name (inr file) :: after ->
  has_suffix name ".md" ->
  file_type file = "" ->
  exists w',
    readMarkdownFilesFromDirectory g (DirHandle handle) w =
      (w', inr (flat_map browser_emits before
                ++ mkFile name "text/markdown" (file_bytes file)
                   :: flat_map browser_emits after)) /\
    store w' = store w.
Proof.
  intros Hmode Hentries Hname Htype.
  destruct (readMarkdown_browser g (DirHandle handle) w Hmode) as (w' & Hrun & Hstore).
  exists w'. split; [|exact Hstore].
  rewrite Hrun, Hentries, flat_map_app. simpl.
  apply endsWith_spec in Hname.
  unfold browser_emits at 2, is_markdown_name.
  rewrite Hname, Htype. reflexivity.
Qed.

(** C9. Cancellation is silent: when the user cancels the picker, or the
    host has no directory capability, [selectDirectory] returns [null]; it
    throws nothing and leaves the store alone. *)
Theorem cancellation_is_silent (g : Global) (w : World Store) :
  declined g ->
  exists w', selectDirectory g w = (w', inr None) /\ store w' = store w.
Proof.
  intros Hdeclined. destruct Hdeclined as [tauri picker Hopen|error| |].
  - exists w. unfold selectDirectory. simpl. unfold bind, ret, await. simpl.
    rewrite Hopen. split; reflexivity.
  - unfold selectDirectory. simpl. unfold try_catch, bind, await. simpl.
    destruct (instanceof_Error error && negb (String.eqb (error_name error) "AbortError"));
      eexists; split; reflexivity.
  - eexists. unfold selectDirectory. simpl. split; reflexivity.
  - eexists. unfold selectDirectory. simpl. split; reflexivity.
Qed.

End EnumeratorProperties.

(** ** Failure of the enumeration *)

Section EnumerationFailure.
Import TauriService BookScanner Importing.
Context {Store Book : Type}.
Variable handleFileUpload : File -> Js Store Book.
Variable db_addBook : Book -> Js Store string.
Variable db_addReadingProgress : string -> Js Store unit.

Local Abbreviation scanDirectory :=
  (BookScanner.scanDirectory handleFileUpload db_addBook db_addReadingProgress).
Local Abbreviation addBooksFromFiles :=
  (BookScanner.addBooksFromFiles handleFileUpload db_addBook db_addReadingProgress).

(** C3, amended.  Enumeration-level abort happens in desktop mode only: when
    [readDir] fails there, [scanDirectory] throws an [Error] whose message is
    [Failed to scan directory: ] followed by the message of the cause, and no
    summary is returned.  In browser mode a failure of the directory iteration
    is caught and logged by the enumerator; [scanDirectory] then returns the
    summary of the candidates collected before the failure, which has
    [total = 0] when the iteration fails at once. *)
Theorem enumeration_abort_desktop_only :
  (forall (tauri : TauriApi) picker (directory : DirectoryRef) (cause : JsValue)
          (w : World Store),
      fs_readDir tauri directory = inl cause ->
      scanDirectory (Some (mkWindow (Some tauri) picker)) directory w =
        (w, inl (new_Error
                   ("Failed to scan directory: " ++ message_or_String cause)%string))) /\
  (forall (g : Global) (handle : DirectoryHandle) (w : World Store),
      isTauri g = false ->
      exists w0 w' r,
        store w0 = store w /\
        scanDirectory g (DirHandle handle) w =
          addBooksFromFiles (flat_map browser_emits (yielded (dir_values handle))) w0 /\
        scanDirectory g (DirHandle handle) w = (w', inr r)) /\
  (forall (g : Global) (name : string) (cause : JsValue) (w : World Store),
      isTauri g = false ->
      exists w',
        scanDirectory g (DirHandle (mkDirHandle name (IterThrow cause))) w =
          (w', inr (mkScanResult 0 0 0 [])) /\
        store w' = store w).
Proof.
  split; [|split].
  - intros tauri picker directory cause w Hdir.
    apply scanDirectory_listing_fails.
    pose proof (readMarkdown_tauri tauri picker directory w) as H.
    now rewrite Hdir in H.
  - intros g handle w Hmode.
    destruct (readMarkdown_browser g (DirHandle handle) w Hmode) as (w0 & Hlist & Hstore).
    destruct (importing_delta handleFileUpload db_addBook db_addReadingProgress
                (flat_map browser_emits (yielded (dir_values handle))) w0)
      as (w' & r & Hrun & _).
    exists w0, w', r. split; [exact Hstore|].
    rewrite (scanDirectory_importing _ _ _ _ _ _ _ _ Hlist),
      <- addBooksFromFiles_importing.
    split; [reflexivity | exact Hrun].
  - intros g name cause w Hmode.
    destruct (readMarkdown_browser g (DirHandle (mkDirHandle name (IterThrow cause)))
                w Hmode) as (w0 & Hlist & Hstore).
    exists w0. rewrite (scanDirectory_importing _ _ _ _ _ _ _ _ Hlist).
    split; [reflexivity | exact Hstore].
Qed.

End EnumerationFailure.

(** ** The scanner over the library store *)

Section LibraryProperties.
Import TauriService BookScanner Importing Library.
Context {Parsed : Type}.
Variable fingerprint : list Byte.byte -> string.
Variable parse : File -> JsValue + Parsed.

Local Abbreviation handleFileUpload := (Library.handleFileUpload fingerprint parse).
Local Abbreviation addBookFromFile := (Library.addBookFromFile fingerprint parse).
Local Abbreviation scanDirectory := (Library.scanDirectory fingerprint parse).
Local Abbreviation addBooksFromFiles := (Library.addBooksFromFiles fingerprint parse).
Local Abbreviation importing :=
  (Importing.importing handleFileUpload addBook addReadingProgress).
Local Abbreviation skips := (Rescan.skips fingerprint parse).
Local Abbreviation grows := (@Rescan.grows Parsed).

(** The store after a book has been added under a fresh identifier. *)
Local Abbreviation with_book s book :=
  (mkStore (books s ++ [(generateId (nextId s), book)]) (readingProgress s)
           (S (nextId s)) (bookWriteFailure s) (progressWriteFailure s)).

(** Every way an ingestion can end, and the world it leaves. *)
Lemma addBookFromFile_cases (file : File) (w : World (Store Parsed)) :
  addBookFromFile file w =
  match parse file with
  | inl value => (w, inl (rethrown value))
  | inr content =>
      let book := mkBook (fingerprint (file_bytes file)) content in
      if hasFingerprint (fileHash book) (store w) then
        (w, inl (new_Error "Book already exists"))
      else
        match bookWriteFailure (store w) with
        | Some value => (w, inl (rethrown value))
        | None =>
            let id := generateId (nextId (store w)) in
            match progressWriteFailure (store w) with
            | Some value =>
                (mkWorld (console w) (with_book (store w) book), inl (rethrown value))
            | None =>
                (mkWorld (console w)
                   (mkStore (books (store w) ++ [(id, book)])
                            (readingProgress (store w) ++ [id])
                            (S (nextId (store w)))
                            (bookWriteFailure (store w))
                            (progressWriteFailure (store w))),
                 inr (id, book))
            end
        end
  end.
Proof.
  unfold Library.addBookFromFile. rewrite addBookFromFile_steps.
  destruct w as [logs s]. unfold Library.handleFileUpload, bind, await, ret. simpl.
  destruct (parse file) as [value|content]; [reflexivity|].
  unfold addBook, on_store. simpl.
  destruct (hasFingerprint (fingerprint (file_bytes file)) s); [reflexivity|].
  destruct (bookWriteFailure s) as [value|]; [reflexivity|].
  unfold addReadingProgress, on_store. simpl.
  destruct (progressWriteFailure s) as [value|]; reflexivity.
Qed.

Lemma hasFingerprint_added (hash : string) (s : Store Parsed) row progress next f1 f2 :
  hasFingerprint hash (mkStore (books s ++ [row]) progress next f1 f2) =
  hasFingerprint hash s || String.eqb (fileHash (snd row)) hash.
Proof.
  unfold hasFingerprint. simpl. rewrite existsb_app. simpl. now rewrite orb_false_r.
Qed.

Lemma grows_refl (s : Store Parsed) : grows s s.
Proof. split; auto. Qed.

Lemma grows_trans (s1 s2 s3 : Store Parsed) : grows s1 s2 -> grows s2 s3 -> grows s1 s3.
Proof. intros [H1 F1] [H2 F2]. split; [auto | congruence]. Qed.

Lemma skips_grows (file : File) (s s' : Store Parsed) :
  grows s s' -> skips file s = true -> skips file s' = true.
Proof.
  intros [Hhash Hfail]. unfold Rescan.skips. rewrite Hfail.
  destruct (parse file) as [value|content]; [trivial|].
  rewrite !orb_true_iff. intros [Hin|Hdup]; [left; auto | now right].
Qed.

(** An ingestion only lets the store grow; when it succeeds or is answered
    with the duplicate signal, the file is skipped from then on. *)
Lemma addBookFromFile_grows (file : File) (w w' : World (Store Parsed)) outcome :
  addBookFromFile file w = (w', outcome) ->
  grows (store w) (store w') /\
  (match outcome with
   | inr _ => True
   | inl e => is_already_exists e = true
   end -> skips file (store w') = true).
Proof.
  rewrite addBookFromFile_cases. unfold Rescan.skips, Rescan.grows.
  destruct (parse file) as [value|content]; simpl.
  { intros H; inversion H; subst. split; [split; auto | trivial]. }
  destruct (hasFingerprint (fingerprint (file_bytes file)) (store w)) eqn:Hin.
  { intros H; inversion H; subst. split; [split; auto|]. now rewrite Hin. }
  destruct (bookWriteFailure (store w)) as [value|] eqn:Hfail.
  { intros H; inversion H; subst. split; [split; auto|].
    rewrite Hfail. intros Hdup. rewrite Hdup. apply orb_true_r. }
  destruct (progressWriteFailure (store w)) as [value|];
    intros H; inversion H; subst; simpl.
  - split; [split; [|reflexivity]|].
    + intros hash Hhash. rewrite hasFingerprint_added, Hhash. reflexivity.
    + intros _. rewrite hasFingerprint_added. simpl.
      rewrite String.eqb_refl. now rewrite !orb_true_r.
  - split; [split; [|reflexivity]|].
    + intros hash Hhash. rewrite hasFingerprint_added, Hhash. reflexivity.
    + intros _. rewrite hasFingerprint_added. simpl.
      rewrite String.eqb_refl. now rewrite !orb_true_r.
Qed.

Lemma importing_grows (files : list File) :
  forall result (w w' : World (Store Parsed)) outcome,
    importing files result w = (w', outcome) -> grows (store w) (store w').
Proof.
  induction files as [|file files IH]; intros result w w' outcome.
  - unfold Importing.importing. simpl. unfold ret. intros H; inversion H; subst.
    apply grows_refl.
  - rewrite importing_cons.
    destruct (BookScanner.addBookFromFile handleFileUpload addBook addReadingProgress
                file w) as [w1 o] eqn:Hfile.
    intros Hrest. apply (grows_trans _ (store w1)).
    + exact (proj1 (addBookFromFile_grows _ _ _ _ Hfile)).
    + exact (IH _ _ _ _ Hrest).
Qed.

(** The errors of a summary are never taken back. *)
Lemma importing_errors (files : list File) result (w w' : World (Store Parsed)) result' :
  importing files result w = (w', inr result') ->
  exists more, errors result' = errors result ++ more.
Proof.
  destruct (importing_delta handleFileUpload addBook addReadingProgress files w)
    as (v & d & _ & _ & _ & Hfrom).
  rewrite Hfrom. intros H; inversion H; subst. now exists (errors d).
Qed.

(** First pass: if no error was recorded, every file is skipped from the
    store the pass leaves. *)
Lemma first_pass_settles (files : list File) :
  forall result (w w' : World (Store Parsed)) result',
    importing files result w = (w', inr result') ->
    errors result' = errors result ->
    forall file, In file files -> skips file (store w') = true.
Proof.
  induction files as [|file files IH]; intros result w w' result' Hrun Herrors f Hin.
  - destruct Hin.
  - rewrite importing_cons in Hrun.
    destruct (BookScanner.addBookFromFile handleFileUpload addBook addReadingProgress
                file w) as [w1 o] eqn:Hfile.
    destruct (importing_errors _ _ _ _ _ Hrun) as (more & Hmore).
    destruct (addBookFromFile_grows _ _ _ _ Hfile) as [_ Hskip].
    assert (Hkind : errors (record_outcome file o result) = errors result /\
                    match o with
                    | inr _ => True
                    | inl e => is_already_exists e = true
                    end).
    { unfold record_outcome in *.
      destruct o as [e|ok]; [destruct (is_already_exists e)|]; simpl in *; auto.
      exfalso. rewrite Herrors, <- app_assoc in Hmore.
      apply (f_equal (@List.length _)) in Hmore. rewrite !length_app in Hmore.
      simpl in Hmore. lia. }
    destruct Hkind as [Hsame Hdup].
    destruct Hin as [<-|Hin].
    + apply (skips_grows file (store w1)); [|auto].
      exact (importing_grows _ _ _ _ _ Hrun).
    + apply (IH _ _ _ _ Hrun); [congruence | exact Hin].
Qed.

(** A file the library skips is answered with the duplicate signal, and the
    world stays as it is. *)
Lemma skips_sound (file : File) (w : World (Store Parsed)) :
  skips file (store w) = true ->
  exists e, addBookFromFile file w = (w, inl e) /\ is_already_exists e = true.
Proof.
  unfold Rescan.skips. rewrite addBookFromFile_cases.
  destruct (parse file) as [value|content]; simpl.
  { intros Hdup. now exists (rethrown value). }
  destruct (hasFingerprint (fingerprint (file_bytes file)) (store w)); simpl.
  { intros _. now exists (new_Error "Book already exists"). }
  destruct (bookWriteFailure (store w)) as [value|]; [|discriminate].
  intros Hdup. now exists (rethrown value).
Qed.

(** Second pass: over files that are all skipped, the loop only counts. *)
Lemma second_pass_skips (files : list File) (w : World (Store Parsed)) :
  (forall file, In file files -> skips file (store w) = true) ->
  forall result,
    importing files result w =
    (w, inr (mkScanResult (total result) (added result)
               (skipped result + List.length files) (errors result))).
Proof.
  induction files as [|file files IH]; intros Hall [t a s e].
  - unfold Importing.importing. simpl. unfold ret. now rewrite Nat.add_0_r.
  - rewrite importing_cons.
    destruct (skips_sound file w (Hall file (or_introl eq_refl))) as (err & Hfile & Hdup).
    unfold Library.addBookFromFile in Hfile. rewrite Hfile.
    unfold record_outcome. rewrite Hdup.
    rewrite IH by (intros f Hf; apply Hall; now right).
    simpl. do 2 f_equal. f_equal. lia.
Qed.

(** C2. Idempotent re-scan: when a scan of a directory recorded no error
    (every file was imported or already present), a second scan of the same
    directory in the world the first one left returns a summary with
    [added = 0] and [skipped = total]: every candidate is answered with the
    duplicate signal, and the store is left as it was, so no second library
    entry is created. *)
Theorem idempotent_rescan
    (g : Global) (directory : DirectoryRef) (w w1 : World (Store Parsed))
    (r1 : ScanResult) :
  scanDirectory g directory w = (w1, inr r1) ->
  errors r1 = [] ->
  exists w2 r2,
    scanDirectory g directory w1 = (w2, inr r2) /\
    added r2 = 0 /\
    skipped r2 = total r2 /\
    total r2 = total r1 /\
    errors r2 = [] /\
    store w2 = store w1.
Proof.
  intros Hfirst Hclean. unfold Library.scanDirectory in *.
  destruct (enumeration_fixed (Store := Store Parsed) g directory) as (outcome & Hlist).
  destruct (Hlist w) as (w0 & Hlist0 & _).
  destruct (Hlist w1) as (w1' & Hlist1 & Hstore1).
  destruct outcome as [cause|files].
  { rewrite (scanDirectory_listing_fails _ _ _ _ _ _ _ _ Hlist0) in Hfirst.
    discriminate. }
  rewrite (scanDirectory_importing _ _ _ _ _ _ _ _ Hlist0) in Hfirst.
  pose proof (first_pass_settles files _ _ _ _ Hfirst Hclean) as Hsettled.
  rewrite <- Hstore1 in Hsettled.
  exists w1', (mkScanResult (List.length files) 0 (0 + List.length files) []).
  rewrite (scanDirectory_importing _ _ _ _ _ _ _ _ Hlist1).
  rewrite (second_pass_skips files w1' Hsettled). simpl.
  repeat split; try assumption.
  destruct (importing_delta handleFileUpload addBook addReadingProgress files w0)
    as (v & d & _ & _ & _ & Hfrom).
  rewrite Hfrom in Hfirst. inversion Hfirst; subst. reflexivity.
Qed.


End LibraryProperties.

(** ** Concrete runs *)

Section Runs.
Import TauriService BookScanner Library Examples.

Local Abbreviation upload := (Library.handleFileUpload fingerprint parse).

(** A batch of five candidates whose third file is malformed: four are added,
    the third is reported, the fourth and the fifth are still processed. *)
Lemma partial_failure_isolation_witness :
  snd (Examples.addBooksFromFiles ([alpha; beta] ++ broken :: [gamma; delta]) start)
  = inr (mkScanResult 5 4 0 [mkScanError "c.md" "Invalid markdown"]).
Proof.
  edestruct (partial_failure_isolation upload addBook addReadingProgress
               [alpha; beta] [gamma; delta] broken start)
    as (w3 & r3 & Hafter & _ & Hall & _).
  - reflexivity.
  - reflexivity.
  - reflexivity.
  - unfold Examples.addBooksFromFiles, Library.addBooksFromFiles.
    rewrite Hall. cbv in Hafter. inversion Hafter. reflexivity.
Defined.

(** The second copy of a file is counted as skipped. *)
Lemma per_file_classification_witness :
  snd (Examples.addBooksFromFiles ([alpha] ++ [alpha]) start)
  = inr (mkScanResult 2 1 1 []).
Proof.
  edestruct (per_file_classification upload addBook addReadingProgress
               [alpha] alpha start) as (Hbatch & _ & _).
  - reflexivity.
  - unfold Examples.addBooksFromFiles, Library.addBooksFromFiles.
    rewrite Hbatch. reflexivity.
Defined.

(** A desktop scan of [/books] is the batch over the two readable files. *)
Lemma addBooksFromFiles_is_importing_phase_witness :
  Examples.scanDirectory desktop (DirPath "/books") start
  = Examples.addBooksFromFiles [alpha; beta]
      (mkWorld [mkLog "Failed to read file /books/locked.md:"
                      (new_Error "Permission denied")]
               emptyStore).
Proof.
  edestruct (addBooksFromFiles_is_importing_phase upload addBook addReadingProgress
               desktop (DirPath "/books") start) as (Hsame & _).
  - reflexivity.
  - exact Hsame.
Defined.

Lemma summary_counts_partition_witness :
  exists w' r,
    Examples.scanDirectory desktop (DirPath "/books") start = (w', inr r) /\
    total r = added r + skipped r + List.length (errors r).
Proof.
  eexists. eexists. split.
  - reflexivity.
  - eapply (proj2 (summary_counts_partition upload addBook addReadingProgress)
              desktop (DirPath "/books") start).
    reflexivity.
Defined.

(** Scanning [/books] a second time adds nothing and skips both files. *)
Lemma idempotent_rescan_witness :
  exists w2 r2,
    Examples.scanDirectory desktop (DirPath "/books")
      (fst (Examples.scanDirectory desktop (DirPath "/books") start)) = (w2, inr r2) /\
    added r2 = 0 /\ skipped r2 = total r2 /\ total r2 = 2 /\ errors r2 = [] /\
    store w2 = store (fst (Examples.scanDirectory desktop (DirPath "/books") start)).
Proof.
  apply (idempotent_rescan fingerprint parse desktop (DirPath "/books") start
           (fst (Examples.scanDirectory desktop (DirPath "/books") start))
           (mkScanResult 2 2 0 [])).
  - reflexivity.
  - reflexivity.
Defined.



(** C3, as stated, fails in browser mode: the directory can no longer be
    listed, yet the scan returns a summary with [total = 0]. *)
Lemma enumeration_abort_browser_returns_summary :
  Examples.scanDirectory browser (DirHandle vanished) start
  = (mkWorld [mkLog "Failed to read directory:"
                    (JsError "NotFoundError" "directory not found")]
             emptyStore,
     inr (mkScanResult 0 0 0 [])).
Proof. reflexivity. Qed.

Lemma enumeration_abort_desktop_only_witness :
  Examples.scanDirectory desktop (DirPath "/nope") start
  = (start,
     inl (new_Error "Failed to scan directory: No such file or directory")).
Proof.
  exact (proj1 (enumeration_abort_desktop_only upload addBook addReadingProgress)
           desktopApi None (DirPath "/nope") (new_Error "No such file or directory")
           start eq_refl).
Defined.

(** C5, as stated, fails for an entry that cannot be read: [a.md] is a
    regular file with the suffix [.md], and no candidate is produced. *)
Lemma extension_filter_unreadable_entry :
  fs_readDir lockedApi (DirPath "/vault") = inr [mkEntry "a.md" "/vault/a.md" true] /\
  isFile (mkEntry "a.md" "/vault/a.md" true) = true /\
  has_suffix (entry_name (mkEntry "a.md" "/vault/a.md" true)) ".md" /\
  snd (readMarkdownFilesFromDirectory lockedDesktop (DirPath "/vault") start) = inr [].
Proof.
  repeat split. now exists "a".
Qed.

Lemma extension_filter_readable_entries_witness :
  exists w' files,
    readMarkdownFilesFromDirectory desktop (DirPath "/books") start = (w', inr files) /\
    In alpha files /\
    In beta files /\
    ~ In (mkFile "locked.md" "text/markdown" []) files.
Proof.
  destruct (proj1 (extension_filter_readable_entries (Store := Store string))
              desktopApi None (DirPath "/books") _ start eq_refl)
    as (w' & files & Hrun & Hiff).
  exists w', files. split; [exact Hrun|]. split; [|split].
  - apply Hiff. exists (mkEntry "a.md" "/books/a.md" true), (file_bytes alpha).
    repeat split; [now left | left; now exists "a"].
  - apply Hiff. exists (mkEntry "b.markdown" "/books/b.markdown" true), (file_bytes beta).
    repeat split; [do 3 right; now left | right; now exists "b"].
  - intros Hin. apply Hiff in Hin.
    destruct Hin as (entry & bytes & Hentry & _ & _ & Hread & Heq).
    simpl in Hentry.
    destruct Hentry as [<-|[<-|[<-|[<-|[]]]]]; simpl in Hread, Heq; discriminate.
Defined.

(** The example of the specification: of [a.md], [b.markdown], [c.txt] and
    [d.MD], exactly the first two are candidates. *)
Example extension_filter_example :
  snd (readMarkdownFilesFromDirectory browser (DirHandle four) start)
  = inr [alpha; beta].
Proof. reflexivity. Qed.

(** [notes.md] comes without a content-type and is emitted as markdown. *)
Lemma content_type_repair_witness :
  snd (readMarkdownFilesFromDirectory browser (DirHandle shelf) start)
  = inr [alpha; mkFile "notes.md" "text/markdown" (file_bytes notes); beta].
Proof.
  edestruct (content_type_repair (Store := Store string) browser shelf start
               [FileSystemFileHandle "a.md" (inr alpha)]
               [ FileSystemFileHandle "c.txt" (inr (mkFile "c.txt" "text/plain" []));
                 FileSystemFileHandle "d.MD" (inr (mkFile "d.MD" "" []));
                 FileSystemDirectoryHandle "sub"
                   (iterate [FileSystemFileHandle "inner.md" (inr beta)]);
                 FileSystemFileHandle "b.markdown" (inr beta) ]
               "notes.md" notes) as (w' & Hrun & _).
  - reflexivity.
  - reflexivity.
  - now exists "notes".
  - reflexivity.
  - rewrite Hrun. reflexivity.
Defined.

(** A browser without the File System Access API: the answer is [null]. *)
Lemma cancellation_is_silent_witness :
  exists w',
    selectDirectory browser start = (w', inr None) /\ store w' = store start.
Proof.
  exact (cancellation_is_silent browser start capability_absent).
Defined.

End Runs.

(** * Further properties *)

(** ** The directory picker and the enumerator *)

Section PickerAndEnumerator.
Import TauriService.
Context {Store : Type}.

Lemma world_eta (w : World Store) : mkWorld (console w) (store w) = w.
Proof. destruct w; reflexivity. Qed.

Lemma world_no_lines (w : World Store) : mkWorld (console w ++ []) (store w) = w.
Proof. rewrite app_nil_r. apply world_eta. Qed.

Lemma append_assoc (a b c : string) : ((a ++ b) ++ c = a ++ (b ++ c))%string.
Proof. induction a as [|ch a IH]; simpl; [reflexivity | now rewrite IH]. Qed.

(** A name with the long suffix does not end in [.md]. *)
Lemma long_suffix_is_not_short (name : string) :
  has_suffix name ".markdown" -> endsWith name ".md" = false.
Proof.
  intros [stem ->].
  assert (Hown : endsWith (stem ++ ".markdown") "own" = true).
  { apply endsWith_spec. exists (stem ++ ".markd")%string.
    now rewrite append_assoc. }
  unfold endsWith in *. simpl String.length in *.
  destruct (Nat.leb 3 (String.length (stem ++ ".markdown"))); [|reflexivity].
  apply String.eqb_eq in Hown. rewrite Hown. reflexivity.
Qed.

(** In browser mode [selectDirectory] never throws and never answers with a
    path: a resolved picker gives its handle and leaves the world alone; a
    rejected one gives [null], and the rejection is written to the console
    unless it is an [AbortError] (or not an [Error] at all); without a picker
    the answer is [null] and one line is written. *)
Theorem browser_picker_contract (g : Global) (w : World Store) :
  isTauri g = false ->
  exists w' selected,
    selectDirectory g w = (w', inr selected) /\
    store w' = store w /\
    match g with
    | Some (mkWindow _ (Some (inr handle))) =>
        selected = Some (DirHandle handle) /\ w' = w
    | Some (mkWindow _ (Some (inl error))) =>
        selected = None /\
        console w' =
          console w ++
          (if instanceof_Error error && negb (String.eqb (error_name error) "AbortError")
           then [mkLog "File System Access API not supported:" error]
           else [])
    | _ =>
        selected = None /\ exists line, console w' = console w ++ [line]
    end.
Proof.
  intros Hmode. unfold selectDirectory. rewrite Hmode.
  destruct g as [[tauri [[error|handle]|]]|]; unfold try_catch, bind; simpl.
  - destruct (instanceof_Error error && negb (String.eqb (error_name error) "AbortError"));
      eexists; eexists; (split; [reflexivity|]); simpl;
      repeat split; now rewrite ?app_nil_r.
  - exists w, (Some (DirHandle handle)). repeat split.
  - eexists; eexists; (split; [reflexivity|]); simpl. repeat split. now eexists.
  - eexists; eexists; (split; [reflexivity|]); simpl. repeat split. now eexists.
Qed.

Lemma falsy_answer_is_null
    (g : Global) (w w' : World Store) (selected : option DirectoryRef) :
  selectDirectory g w = (w', inr selected) ->
  BookDirectoryScanner.falsy selected = true -> selected = None.
Proof.
  assert (Hor : forall value, BookDirectoryScanner.falsy (or_null value) = true ->
                              or_null value = None).
  { intros [path|]; simpl; [|reflexivity].
    destruct (truthy path) eqn:Hpath; simpl; [|reflexivity].
    rewrite Hpath. discriminate. }
  unfold selectDirectory.
  destruct g as [[[tauri|] picker]|]; simpl.
  - unfold bind, ret, await. simpl.
    destruct (dialog_open tauri) as [error|[|path|paths]]; intros H; inversion H; subst;
      try apply Hor; auto; exact (Hor (Some path)).
  - unfold try_catch, bind. simpl.
    destruct picker as [[error|handle]|]; simpl;
      try destruct (instanceof_Error error && _);
      intros H; inversion H; subst; simpl; auto; discriminate.
  - intros H; inversion H; subst; reflexivity.
Qed.

(** Whatever [selectDirectory] returns is [null] or truthy: it never hands
    out an empty path, so a caller's [!selectedDir] test fires on [null]
    only. *)
Theorem selected_directory_is_truthy
    (g : Global) (w w' : World Store) (selected : option DirectoryRef) :
  selectDirectory g w = (w', inr selected) ->
  BookDirectoryScanner.falsy selected = true <-> selected = None.
Proof.
  intros Hselect. split.
  - exact (falsy_answer_is_null g w w' selected Hselect).
  - intros ->. reflexivity.
Qed.

End PickerAndEnumerator.

Section EnumeratorAccounting.
Import TauriService.
Context {Store : Type}.

(** Desktop mode: the candidates come in the order of the listing, one for
    each regular file with a markdown suffix that could be read, under the
    name of its entry and with the content-type [text/markdown]. *)
Theorem listing_order_is_kept
    (tauri : TauriApi) picker (dirPath : DirectoryRef) (entries : list DirEntry)
    (w : World Store) :
  fs_readDir tauri dirPath = inr entries ->
  exists w' files,
    readMarkdownFilesFromDirectory (Some (mkWindow (Some tauri) picker)) dirPath w
      = (w', inr files) /\
    map file_name files =
      map entry_name
        (filter (fun entry =>
                   isFile entry && is_markdown_name (entry_name entry)
                   && match fs_readFile tauri (entry_path entry) with
                      | inr _ => true
                      | inl _ => false
                      end)
                entries) /\
    Forall (fun file => file_type file = "text/markdown") files.
Proof.
  intros Hdir.
  pose proof (readMarkdown_tauri tauri picker dirPath w) as H.
  rewrite Hdir in H. destruct H as (w' & Hrun & _).
  exists w', (flat_map (tauri_emits tauri) entries). split; [exact Hrun|].
  clear Hrun Hdir. induction entries as [|entry entries [IHnames IHtypes]]; simpl.
  - split; [reflexivity | constructor].
  - rewrite map_app, Forall_app, IHnames.
    change (tauri_emits tauri entry) with
      (if isFile entry && is_markdown_name (entry_name entry)
       then match fs_readFile tauri (entry_path entry) with
            | inr bytes => [mkFile (entry_name entry) "text/markdown" bytes]
            | inl _ => []
            end
       else []).
    destruct (isFile entry && is_markdown_name (entry_name entry)); simpl;
      [|split; [reflexivity | split; [constructor | exact IHtypes]]].
    destruct (fs_readFile tauri (entry_path entry)) as [error|bytes]; simpl.
    + split; [reflexivity | split; [constructor | exact IHtypes]].
    + split; [reflexivity | split; [repeat constructor | exact IHtypes]].
Qed.

(** Browser mode: the repair of the content-type is tied to the suffix
    [.md].  A file handle named with the suffix [.markdown] is emitted as
    the file it resolves to, also when that file has no content-type. *)
Theorem long_suffix_is_not_repaired
    (g : Global) (handle : DirectoryHandle) (w : World Store)
    (before after : list FileSystemHandle) (name : string) (file : File) :
  isTauri g = false ->
  yielded (dir_values handle) = before ++ FileSystemFileHandle name (inr file) :: after ->
  has_suffix name ".markdown" ->
  exists w',
    readMarkdownFilesFromDirectory g (DirHandle handle) w =
      (w', inr (flat_map browser_emits before ++ file :: flat_map browser_emits after)).
Proof.
  intros Hmode Hentries Hname.
  destruct (readMarkdown_browser g (DirHandle handle) w Hmode) as (w' & Hrun & _).
  exists w'. rewrite Hrun, Hentries, flat_map_app. simpl.
  unfold browser_emits at 2.
  rewrite (proj2 (is_markdown_name_spec name) (or_intror Hname)).
  rewrite (long_suffix_is_not_short name Hname), andb_false_r. reflexivity.
Qed.

Lemma tauri_body_logs (tauri : TauriApi) (entry : DirEntry) (acc : list File)
    (w : World Store) :
  exists lines,
    tauri_body tauri entry acc w =
      (mkWorld (console w ++ lines) (store w), inr (acc ++ tauri_emits tauri entry)) /\
    List.length (tauri_emits tauri entry) + List.length lines =
      if isFile entry && is_markdown_name (entry_name entry) then 1 else 0.
Proof.
  unfold tauri_body, tauri_emits.
  destruct (isFile entry && is_markdown_name (entry_name entry)).
  - unfold try_catch, bind, await.
    destruct (fs_readFile tauri (entry_path entry)) as [error|bytes].
    + eexists [_]. unfold console_error, ret. simpl. now rewrite app_nil_r.
    + exists []. unfold ret. now rewrite world_no_lines.
  - exists []. unfold ret. now rewrite world_no_lines, app_nil_r.
Qed.

Lemma tauri_loop_logs (tauri : TauriApi) (entries : list DirEntry) :
  forall acc (w : World Store), exists lines,
    for_of entries (tauri_body tauri) acc w =
      (mkWorld (console w ++ lines) (store w),
       inr (acc ++ flat_map (tauri_emits tauri) entries)) /\
    List.length (flat_map (tauri_emits tauri) entries) + List.length lines =
      List.length (filter (fun entry => isFile entry && is_markdown_name (entry_name entry))
                          entries).
Proof.
  induction entries as [|entry entries IH]; intros acc w; simpl.
  - exists []. unfold ret. now rewrite world_no_lines, app_nil_r.
  - destruct (tauri_body_logs tauri entry acc w) as (lines1 & Hbody & Hcount1).
    destruct (IH (acc ++ tauri_emits tauri entry)
                 (mkWorld (console w ++ lines1) (store w)))
      as (lines2 & Hrest & Hcount2).
    exists (lines1 ++ lines2). unfold bind. rewrite Hbody, Hrest. simpl.
    rewrite <- !app_assoc. split; [reflexivity|].
    rewrite !length_app.
    destruct (isFile entry && is_markdown_name (entry_name entry)); simpl; lia.
Qed.

Lemma browser_body_logs (entry : FileSystemHandle) (acc : list File) (w : World Store) :
  exists lines,
    browser_body entry acc w =
      (mkWorld (console w ++ lines) (store w), inr (acc ++ browser_emits entry)) /\
    List.length (browser_emits entry) + List.length lines =
      if matches entry then 1 else 0.
Proof.
  unfold browser_body, browser_emits, matches, is_file_kind.
  destruct entry as [name [error|file]|name values]; simpl.
  - destruct (is_markdown_name name); simpl.
    + eexists [_]. unfold try_catch, bind, await, console_error, ret. simpl.
      now rewrite app_nil_r.
    + exists []. unfold ret. now rewrite world_no_lines, app_nil_r.
  - destruct (is_markdown_name name); simpl.
    + exists []. unfold try_catch, bind, await, truthy.
      rewrite negb_involutive, world_no_lines.
      destruct (String.eqb (file_type file) "" && endsWith name ".md");
        split; reflexivity.
    + exists []. unfold ret. now rewrite world_no_lines, app_nil_r.
  - exists []. unfold ret. now rewrite world_no_lines, app_nil_r.
Qed.

Lemma for_await_logs (it : AsyncIterator) :
  forall acc (w : World Store), exists lines,
    for_await it acc w =
      (mkWorld (console w ++ lines) (store w),
       inr (acc ++ flat_map browser_emits (yielded it))) /\
    List.length (flat_map browser_emits (yielded it)) + List.length lines =
      List.length (filter matches (yielded it))
      + (if ends_throwing it then 1 else 0).
Proof.
  induction it as [|error|entry next IH]; intros acc w; simpl.
  - exists []. unfold ret. now rewrite world_no_lines, app_nil_r.
  - eexists [_]. unfold bind, console_error, ret. simpl. now rewrite app_nil_r.
  - destruct (browser_body_logs entry acc w) as (lines1 & Hbody & Hcount1).
    destruct (IH (acc ++ browser_emits entry)
                 (mkWorld (console w ++ lines1) (store w)))
      as (lines2 & Hrest & Hcount2).
    exists (lines1 ++ lines2). unfold bind. rewrite Hbody, Hrest. simpl.
    rewrite <- !app_assoc. split; [reflexivity|].
    rewrite !length_app.
    destruct (matches entry); simpl; lia.
Qed.

(** No matching entry is lost without a trace: the enumeration only appends
    to the console and leaves the store alone, and the candidates and the
    lines written add up to the entries that pass the test of the loop, plus,
    in browser mode, one line when the iteration itself ends by throwing. *)
Theorem every_match_is_read_or_logged :
  (forall (tauri : TauriApi) picker (dirPath : DirectoryRef) (entries : list DirEntry)
          (w : World Store),
      fs_readDir tauri dirPath = inr entries ->
      exists files lines,
        readMarkdownFilesFromDirectory (Some (mkWindow (Some tauri) picker)) dirPath w
          = (mkWorld (console w ++ lines) (store w), inr files) /\
        List.length files + List.length lines =
          List.length
            (filter (fun entry => isFile entry && is_markdown_name (entry_name entry))
                    entries)) /\
  (forall (g : Global) (handle : DirectoryHandle) (w : World Store),
      isTauri g = false ->
      exists files lines,
        readMarkdownFilesFromDirectory g (DirHandle handle) w
          = (mkWorld (console w ++ lines) (store w), inr files) /\
        List.length files + List.length lines =
          List.length (filter matches (yielded (dir_values handle)))
          + (if ends_throwing (dir_values handle) then 1 else 0)).
Proof.
  split.
  - intros tauri picker dirPath entries w Hdir.
    destruct (tauri_loop_logs tauri entries [] w) as (lines & Hloop & Hcount).
    exists (flat_map (tauri_emits tauri) entries), lines. split; [|exact Hcount].
    unfold readMarkdownFilesFromDirectory. simpl. unfold bind, ret, await. simpl.
    rewrite Hdir. exact Hloop.
  - intros g handle w Hmode.
    destruct (for_await_logs (dir_values handle) [] w) as (lines & Hloop & Hcount).
    exists (flat_map browser_emits (yielded (dir_values handle))), lines.
    split; [|exact Hcount].
    unfold readMarkdownFilesFromDirectory. rewrite Hmode. exact Hloop.
Qed.

End EnumeratorAccounting.

(** ** More on the scanner over arbitrary collaborators *)

Section ScannerComposition.
Import TauriService BookScanner Importing.
Context {Store Book : Type}.
Variable handleFileUpload : File -> Js Store Book.
Variable db_addBook : Book -> Js Store string.
Variable db_addReadingProgress : string -> Js Store unit.

Local Abbreviation addBookFromFile :=
  (BookScanner.addBookFromFile handleFileUpload db_addBook db_addReadingProgress).
Local Abbreviation scanDirectory :=
  (BookScanner.scanDirectory handleFileUpload db_addBook db_addReadingProgress).
Local Abbreviation addBooksFromFiles :=
  (BookScanner.addBooksFromFiles handleFileUpload db_addBook db_addReadingProgress).
Local Abbreviation importing :=
  (Importing.importing handleFileUpload db_addBook db_addReadingProgress).

(** A scan that throws has thrown in the listing of a desktop directory. *)
Lemma scanDirectory_throws (g : Global) (directory : DirectoryRef)
    (w w' : World Store) (e : JsValue) :
  scanDirectory g directory w = (w', inl e) ->
  w' = w /\
  exists tauri picker cause,
    g = Some (mkWindow (Some tauri) picker) /\
    fs_readDir tauri directory = inl cause /\
    e = new_Error ("Failed to scan directory: " ++ message_or_String cause)%string.
Proof.
  intros Hscan. destruct (isTauri g) eqn:Hmode.
  - destruct (isTauri_true g Hmode) as (tauri & picker & ->).
    pose proof (readMarkdown_tauri (Store := Store) tauri picker directory w) as Hlist.
    destruct (fs_readDir tauri directory) as [cause|entries] eqn:Hdir.
    + rewrite (scanDirectory_listing_fails _ _ _ _ _ _ _ _ Hlist) in Hscan.
      inversion Hscan; subst. split; [reflexivity|]. now exists tauri, picker, cause.
    + destruct Hlist as (w0 & Hlist & _).
      rewrite (scanDirectory_importing _ _ _ _ _ _ _ _ Hlist) in Hscan.
      destruct (importing_returns handleFileUpload db_addBook db_addReadingProgress
                  (flat_map (tauri_emits tauri) entries)
                  (mkScanResult (List.length (flat_map (tauri_emits tauri) entries)) 0 0 [])
                  w0) as (v & r & Hrun).
      rewrite Hrun in Hscan. discriminate.
  - destruct (readMarkdown_browser g directory w Hmode) as (w0 & Hlist & _).
    rewrite (scanDirectory_importing _ _ _ _ _ _ _ _ Hlist) in Hscan.
    match type of Hscan with
    | Importing.importing _ _ _ ?files ?init _ = _ =>
        destruct (importing_returns handleFileUpload db_addBook db_addReadingProgress
                    files init w0) as (v & r & Hrun)
    end.
    rewrite Hrun in Hscan. discriminate.
Qed.

(** Batches compose: a batch over [files1 ++ files2] leaves the world, and
    returns the sum of the summaries, of a batch over [files1] followed by a
    batch over [files2]. *)
Theorem batches_compose (files1 files2 : list File) (w : World Store) :
  exists w1 r1 w2 r2,
    addBooksFromFiles files1 w = (w1, inr r1) /\
    addBooksFromFiles files2 w1 = (w2, inr r2) /\
    addBooksFromFiles (files1 ++ files2) w = (w2, inr (combine r1 r2)).
Proof.
  destruct (importing_delta handleFileUpload db_addBook db_addReadingProgress files1 w)
    as (w1 & r1 & Hrun1 & _).
  destruct (importing_delta handleFileUpload db_addBook db_addReadingProgress files2 w1)
    as (w2 & r2 & Hrun2 & _).
  exists w1, r1, w2, r2. split; [exact Hrun1|]. split; [exact Hrun2|].
  exact (addBooksFromFiles_app _ _ _ _ _ _ _ _ _ _ Hrun1 Hrun2).
Qed.

Lemma importing_errors_in_order (files : list File) :
  forall result (w w' : World Store) result',
    importing files result w = (w', inr result') ->
    exists more,
      errors result' = errors result ++ more /\
      subseq (map filename more) (map file_name files).
Proof.
  induction files as [|file files IH]; intros result w w' result' Hrun.
  - unfold Importing.importing in Hrun. simpl in Hrun. unfold ret in Hrun.
    inversion Hrun; subst. exists []. rewrite app_nil_r. split; [reflexivity|constructor].
  - rewrite importing_cons in Hrun.
    destruct (BookScanner.addBookFromFile handleFileUpload db_addBook
                db_addReadingProgress file w) as [w1 outcome].
    destruct (IH _ _ _ _ Hrun) as (more & Herrors & Hsub).
    unfold record_outcome in Herrors.
    destruct outcome as [e|ok]; [destruct (is_already_exists e)|]; simpl in Herrors.
    + exists more. split; [exact Herrors | now constructor].
    + eexists (_ :: more). rewrite Herrors, <- app_assoc. split; [reflexivity|].
      simpl. now constructor.
    + exists more. split; [exact Herrors | now constructor].
Qed.

(** The errors of a summary name files of the batch, in the order of the
    batch: their file names are the file names of the batch with some left
    out.  This holds for [addBooksFromFiles] and for [scanDirectory] over the
    enumerated files. *)
Theorem errors_follow_file_order :
  (forall (files : list File) (w w' : World Store) (r : ScanResult),
      addBooksFromFiles files w = (w', inr r) ->
      subseq (map filename (errors r)) (map file_name files)) /\
  (forall (g : Global) (directory : DirectoryRef) (w w0 w' : World Store)
          (files : list File) (r : ScanResult),
      readMarkdownFilesFromDirectory g directory w = (w0, inr files) ->
      scanDirectory g directory w = (w', inr r) ->
      subseq (map filename (errors r)) (map file_name files)).
Proof.
  split.
  - intros files w w' r Hrun. rewrite addBooksFromFiles_importing in Hrun.
    destruct (importing_errors_in_order _ _ _ _ _ Hrun) as (more & Herrors & Hsub).
    simpl in Herrors. now rewrite Herrors.
  - intros g directory w w0 w' files r Hlist Hscan.
    rewrite (scanDirectory_importing _ _ _ _ _ _ _ _ Hlist) in Hscan.
    destruct (importing_errors_in_order _ _ _ _ _ Hscan) as (more & Herrors & Hsub).
    simpl in Herrors. now rewrite Herrors.
Qed.

(** A scan that throws has ingested nothing: it throws only when the listing
    of a desktop directory fails, the world is then as it was before the
    call, and the error is a new [Error] whose message starts with
    [Failed to scan directory: ]. *)
Theorem failed_scan_ingests_nothing
    (g : Global) (directory : DirectoryRef) (w w' : World Store) (e : JsValue) :
  scanDirectory g directory w = (w', inl e) ->
  w' = w /\
  isTauri g = true /\
  exists cause,
    readMarkdownFilesFromDirectory g directory w = (w, inl cause) /\
    e = new_Error ("Failed to scan directory: " ++ message_or_String cause)%string.
Proof.
  intros Hscan.
  destruct (scanDirectory_throws _ _ _ _ _ Hscan)
    as (-> & tauri & picker & cause & -> & Hdir & ->).
  split; [reflexivity|]. split; [reflexivity|]. exists cause. split; [|reflexivity].
  pose proof (readMarkdown_tauri (Store := Store) tauri picker directory w) as Hlist.
  now rewrite Hdir in Hlist.
Qed.

(** The message for a summary returned by a scan tells the three situations
    apart: it is the warning exactly when some file failed, the notice that
    no books were found exactly when there was no candidate at all, and the
    success message exactly when there were candidates and none failed. *)
Theorem summary_message_tells_situations
    (g : Global) (directory : DirectoryRef) (w w' : World Store) (r : ScanResult) :
  scanDirectory g directory w = (w', inr r) ->
  (BookDirectoryScanner.level (summary_message r) = BookDirectoryScanner.Warning
   <-> errors r <> []) /\
  (BookDirectoryScanner.level (summary_message r) = BookDirectoryScanner.Info
   <-> total r = 0) /\
  (BookDirectoryScanner.level (summary_message r) = BookDirectoryScanner.Success
   <-> errors r = [] /\ 0 < total r).
Proof.
  intros Hscan.
  assert (Hcount : total r = added r + skipped r + List.length (errors r)).
  { destruct (readMarkdownFilesFromDirectory g directory w) as [w0 [cause|files]] eqn:Hlist.
    - rewrite (scanDirectory_listing_fails _ _ _ _ _ _ _ _ Hlist) in Hscan. discriminate.
    - rewrite (scanDirectory_importing _ _ _ _ _ _ _ _ Hlist),
        <- addBooksFromFiles_importing in Hscan.
      destruct (importing_delta handleFileUpload db_addBook db_addReadingProgress
                  files w0) as (v & d & Hrun & Htotal & Hsum & _).
      rewrite Hrun in Hscan. inversion Hscan; subst. lia. }
  unfold summary_message.
  destruct (errors r) as [|failure failures] eqn:Herrors; simpl in *.
  - destruct (added r) as [|a]; destruct (skipped r) as [|s]; simpl;
      repeat split; intros; try discriminate; try congruence; try lia;
      try (destruct H; lia).
  - repeat split; intros; try discriminate; try lia; try (destruct H; discriminate).
Qed.

End ScannerComposition.

(** ** The scan button *)

Section ButtonProperties.
Import TauriService BookScanner BookDirectoryScanner.
Context {Store Book : Type}.
Variable handleFileUpload : File -> Js Store Book.
Variable db_addBook : Book -> Js Store string.
Variable db_addReadingProgress : string -> Js Store unit.

Local Abbreviation scan :=
  (BookScanner_scanDirectory handleFileUpload db_addBook db_addReadingProgress).
Local Abbreviation handler :=
  (handleScanDirectory handleFileUpload db_addBook db_addReadingProgress).
Local Abbreviation loading := (mkMessage Loading "Scanning directory for books...").
Local Abbreviation failure_text error :=
  (if instanceof_Error error then error_message error else "Failed to scan directory").

Lemma selectDirectory_store {S : Type} (g : Global) (w w' : World S) outcome :
  selectDirectory g w = (w', outcome) -> store w' = store w.
Proof.
  unfold selectDirectory.
  destruct g as [[[tauri|] picker]|]; simpl.
  - unfold bind, ret, await. simpl.
    destruct (dialog_open tauri) as [error|[|path|paths]];
      intros H; inversion H; reflexivity.
  - unfold try_catch, bind. simpl.
    destruct picker as [[error|handle]|]; simpl;
      try destruct (instanceof_Error error && _);
      intros H; inversion H; reflexivity.
  - intros H; inversion H; reflexivity.
Qed.

(** What the picker answers does not depend on the world it is called in. *)
Lemma selectDirectory_fixed {S1 S2 : Type} (g : Global) (w1 : World S1) (w2 : World S2) :
  snd (selectDirectory g w1) = snd (selectDirectory g w2).
Proof.
  unfold selectDirectory.
  destruct g as [[[tauri|] picker]|]; simpl.
  - unfold bind, ret, await. simpl.
    destruct (dialog_open tauri) as [error|[|path|paths]]; reflexivity.
  - unfold try_catch, bind. simpl.
    destruct picker as [[error|handle]|]; simpl;
      try destruct (instanceof_Error error && _); reflexivity.
  - reflexivity.
Qed.

Lemma zoom_keeps_ui {A} (m : Js Store A) (w w' : World (UiState * Store)) outcome :
  zoom m w = (w', outcome) -> fst (store w') = fst (store w).
Proof.
  unfold zoom. destruct (m _) as [v r]. intros H; inversion H; reflexivity.
Qed.

(** The services never touch what the component owns. *)
Lemma scan_keeps_ui (g : Global) (directory : DirectoryRef)
    (w w' : World (UiState * Store)) outcome :
  scan g directory w = (w', outcome) -> fst (store w') = fst (store w).
Proof.
  unfold BookScanner_scanDirectory.
  set (upload := fun file => zoom (handleFileUpload file)).
  set (add := fun book => zoom (db_addBook book)).
  set (progress := fun id => zoom (db_addReadingProgress id)).
  assert (Hfile : forall file v v' o,
             BookScanner.addBookFromFile upload add progress file v = (v', o) ->
             fst (store v') = fst (store v)).
  { intros file v v' o. rewrite addBookFromFile_steps. unfold bind.
    destruct (upload file v) as [v1 [e1|book]] eqn:H1.
    { intros H; inversion H; subst. exact (zoom_keeps_ui _ _ _ _ H1). }
    destruct (add book v1) as [v2 [e2|id]] eqn:H2.
    { intros H; inversion H; subst.
      rewrite (zoom_keeps_ui _ _ _ _ H2). exact (zoom_keeps_ui _ _ _ _ H1). }
    destruct (progress id v2) as [v3 [e3|done]] eqn:H3;
      intros H; inversion H; subst;
      rewrite (zoom_keeps_ui _ _ _ _ H3), (zoom_keeps_ui _ _ _ _ H2);
      exact (zoom_keeps_ui _ _ _ _ H1). }
  assert (Hloop : forall files result v v' o,
             Importing.importing upload add progress files result v = (v', o) ->
             fst (store v') = fst (store v)).
  { induction files as [|file files IH]; intros result v v' o.
    - unfold Importing.importing. simpl. unfold ret. intros H; inversion H; reflexivity.
    - rewrite importing_cons.
      destruct (BookScanner.addBookFromFile upload add progress file v) as [v1 o1] eqn:H1.
      intros Hrest. rewrite (IH _ _ _ _ Hrest). exact (Hfile _ _ _ _ H1). }
  destruct (enumeration_fixed (Store := UiState * Store) g directory) as (listed & Hlist).
  destruct (Hlist w) as (w0 & Hlist0 & Hstore0).
  destruct listed as [cause|files].
  - rewrite (scanDirectory_listing_fails _ _ _ _ _ _ _ _ Hlist0).
    intros H; inversion H; subst. now rewrite Hstore0.
  - rewrite (scanDirectory_importing _ _ _ _ _ _ _ _ Hlist0).
    intros H. rewrite (Hloop _ _ _ _ _ H). now rewrite Hstore0.
Qed.

(** Every run of the handler, by what the picker answers and how the scan
    ends. *)
Lemma handler_run (g : Global) (logs : list LogLine) (ui : UiState) (s : Store) :
  let scanning := mkUi true (displayed ui) (loadingOpen ui) in
  let busy := mkUi true (displayed ui ++ [loading]) (S (loadingOpen ui)) in
  exists logs2 selection,
    selectDirectory g (mkWorld logs (scanning, s)) = (mkWorld logs2 (scanning, s), selection) /\
    match selection with
    | inl error =>
        handler g (mkWorld logs (ui, s)) =
          (mkWorld (logs2 ++ [mkLog "Failed to scan directory:" error])
                   (mkUi false
                         (displayed ui ++ [mkMessage Failure (failure_text error)])
                         (loadingOpen ui), s),
           inr tt)
    | inr None =>
        handler g (mkWorld logs (ui, s)) =
          (mkWorld logs2 (mkUi false (displayed ui) (loadingOpen ui), s), inr tt)
    | inr (Some directory) =>
        exists logs4 s4 outcome,
          scan g directory (mkWorld logs2 (busy, s)) = (mkWorld logs4 (busy, s4), outcome) /\
          handler g (mkWorld logs (ui, s)) =
            match outcome with
            | inr result =>
                (mkWorld logs4
                         (mkUi false (displayed ui ++ [loading; summary_message result])
                               (loadingOpen ui), s4),
                 inr tt)
            | inl error =>
                (mkWorld (logs4 ++ [mkLog "Failed to scan directory:" error])
                         (mkUi false
                               (displayed ui
                                ++ [loading; mkMessage Failure (failure_text error)])
                               (loadingOpen ui), s4),
                 inr tt)
            end
    end.
Proof.
  intros scanning busy.
  destruct (selectDirectory g (mkWorld logs (scanning, s))) as [[logs2 st2] selection] eqn:Hsel.
  pose proof (selectDirectory_store _ _ _ _ Hsel) as Hst. simpl in Hst. subst st2.
  exists logs2, selection. split; [reflexivity|].
  assert (Htruthy : forall directory,
             selection = inr (Some directory) -> falsy (Some directory) = false).
  { intros directory ->.
    destruct (falsy (Some directory)) eqn:Hfalsy; [|reflexivity].
    pose proof (falsy_answer_is_null _ _ _ _ Hsel Hfalsy). discriminate. }
  assert (Hstart : forall (k : option DirectoryRef -> Js (UiState * Store) unit)
                          (handle_error : JsValue -> Js (UiState * Store) unit),
             try_catch
               (setIsScanning true ;;; selectedDir <- selectDirectory g ;; k selectedDir)
               handle_error (mkWorld logs (ui, s)) =
             match selection with
             | inr selected =>
                 match k selected (mkWorld logs2 (scanning, s)) with
                 | (w', inr done) => (w', inr done)
                 | (w', inl error) => handle_error error w'
                 end
             | inl error => handle_error error (mkWorld logs2 (scanning, s))
             end).
  { intros k handle_error. unfold try_catch, bind, setIsScanning, update_ui. simpl.
    fold scanning. rewrite Hsel. destruct selection; reflexivity. }
  unfold handleScanDirectory, try_finally.
  destruct selection as [error|[directory|]]; rewrite Hstart.
  - reflexivity.
  - rewrite (Htruthy directory eq_refl).
    unfold bind at 1, message_loading, bind at 1, update_ui at 1, ret at 1. simpl.
    fold busy.
    destruct (scan g directory (mkWorld logs2 (busy, s))) as [[logs4 [ui4 s4]] outcome]
      eqn:Hscan.
    pose proof (scan_keeps_ui _ _ _ _ _ Hscan) as Hui. simpl in Hui. subst ui4.
    exists logs4, s4, outcome. split; [reflexivity|].
    unfold BookScanner_scanDirectory in Hscan.
    unfold try_catch at 1, bind at 1, BookScanner_scanDirectory. rewrite Hscan.
    destruct outcome as [error|result].
    + unfold bind, update_ui, throw, console_error, message_open. simpl.
      now rewrite <- app_assoc.
    + unfold bind at 1, update_ui at 1. simpl. unfold summary_message.
      destruct (Nat.ltb 0 (List.length (errors result)));
        [|destruct (Nat.ltb 0 (added result) || Nat.ltb 0 (skipped result))];
        unfold message_open, update_ui; simpl; now rewrite <- app_assoc.
  - reflexivity.
Qed.

(** The handler never throws, and when it is done the button is idle again
    and the loading indicator it may have opened is closed: [isScanning] is
    [false] and as many indicators are open as before the click. *)
Theorem handler_always_finishes (g : Global) (w : World (UiState * Store)) :
  exists w',
    handler g w = (w', inr tt) /\
    isScanning (fst (store w')) = false /\
    loadingOpen (fst (store w')) = loadingOpen (fst (store w)).
Proof.
  destruct w as [logs [ui s]].
  destruct (handler_run g logs ui s) as (logs2 & selection & _ & Hrun).
  destruct selection as [error|[directory|]].
  - eexists. split; [exact Hrun|]. split; reflexivity.
  - destruct Hrun as (logs4 & s4 & outcome & _ & Hrun).
    destruct outcome; eexists; (split; [exact Hrun|]); split; reflexivity.
  - eexists. split; [exact Hrun|]. split; reflexivity.
Qed.

(** When the picker answers [null], nothing is scanned and nothing is
    shown: the library store and the displayed messages are as before. *)
Theorem null_selection_scans_nothing (g : Global) (w : World (UiState * Store)) :
  snd (selectDirectory g w) = inr None ->
  exists w',
    handler g w = (w', inr tt) /\
    displayed (fst (store w')) = displayed (fst (store w)) /\
    snd (store w') = snd (store w).
Proof.
  destruct w as [logs [ui s]]. intros Hnull.
  destruct (handler_run g logs ui s) as (logs2 & selection & Hsel & Hrun).
  rewrite (selectDirectory_fixed g _
             (mkWorld logs (mkUi true (displayed ui) (loadingOpen ui), s))) in Hnull.
  rewrite Hsel in Hnull. simpl in Hnull. subst selection.
  eexists. split; [exact Hrun|]. split; reflexivity.
Qed.

(** When the picker answers a directory, the handler shows the loading
    indicator, runs one scan of that directory from the library store as it
    was, and then shows exactly one more message: the one for the summary, or
    the message of the error the scan threw, which is also written to the
    console.  The library store is left as the scan left it. *)
Theorem handler_reports_the_scan
    (g : Global) (w : World (UiState * Store)) (directory : DirectoryRef) :
  snd (selectDirectory g w) = inr (Some directory) ->
  exists w3 w4 outcome w',
    scan g directory w3 = (w4, outcome) /\
    snd (store w3) = snd (store w) /\
    handler g w = (w', inr tt) /\
    snd (store w') = snd (store w4) /\
    displayed (fst (store w')) =
      displayed (fst (store w))
      ++ [loading;
          match outcome with
          | inr result => summary_message result
          | inl error => mkMessage Failure (error_message error)
          end] /\
    console w' =
      console w4
      ++ match outcome with
         | inr _ => []
         | inl error => [mkLog "Failed to scan directory:" error]
         end.
Proof.
  destruct w as [logs [ui s]]. intros Hpicked.
  destruct (handler_run g logs ui s) as (logs2 & selection & Hsel & Hrun).
  rewrite (selectDirectory_fixed g _
             (mkWorld logs (mkUi true (displayed ui) (loadingOpen ui), s))) in Hpicked.
  rewrite Hsel in Hpicked. simpl in Hpicked. subst selection.
  destruct Hrun as (logs4 & s4 & outcome & Hscan & Hrun).
  destruct outcome as [error|result].
  - eexists. eexists. exists (inl error). eexists.
    split; [exact Hscan|]. split; [reflexivity|]. split; [exact Hrun|]. simpl.
    unfold BookScanner_scanDirectory in Hscan.
    destruct (scanDirectory_throws _ _ _ _ _ _ _ _ Hscan) as (_ & _ & _ & cause & _ & _ & ->).
    repeat split.
  - eexists. eexists. exists (inr result). eexists.
    split; [exact Hscan|]. split; [reflexivity|]. split; [exact Hrun|]. simpl.
    rewrite app_nil_r. repeat split.
Qed.

(** When the picker itself throws, no scan is started: the handler writes
    the error to the console and shows its message, and nothing else; the
    library store is as before. *)
Theorem picker_failure_is_reported
    (g : Global) (w : World (UiState * Store)) (error : JsValue) :
  snd (selectDirectory g w) = inl error ->
  exists w',
    handler g w = (w', inr tt) /\
    displayed (fst (store w')) =
      displayed (fst (store w)) ++ [mkMessage Failure (failure_text error)] /\
    snd (store w') = snd (store w) /\
    exists lines,
      console w' = console w ++ lines ++ [mkLog "Failed to scan directory:" error].
Proof.
  destruct w as [logs [ui s]]. intros Hthrown.
  destruct (handler_run g logs ui s) as (logs2 & selection & Hsel & Hrun).
  rewrite (selectDirectory_fixed g _
             (mkWorld logs (mkUi true (displayed ui) (loadingOpen ui), s))) in Hthrown.
  rewrite Hsel in Hthrown. simpl in Hthrown. subst selection.
  eexists. split; [exact Hrun|]. split; [reflexivity|]. split; [reflexivity|].
  simpl. exists []. simpl.
  unfold selectDirectory in Hsel.
  destruct g as [[[tauri|] picker]|]; simpl in Hsel.
  - unfold bind, ret, await in Hsel. simpl in Hsel.
    destruct (dialog_open tauri) as [e|[|path|paths]]; inversion Hsel; reflexivity.
  - unfold try_catch, bind in Hsel. simpl in Hsel.
    destruct picker as [[e|handle]|]; simpl in Hsel;
      try destruct (instanceof_Error e && _); inversion Hsel.
  - inversion Hsel.
Qed.

End ButtonProperties.

(** ** More concrete runs *)

Section MoreRuns.
Import TauriService BookScanner BookDirectoryScanner Library Examples Screen.

Local Abbreviation upload := (Library.handleFileUpload fingerprint parse).
Local Abbreviation loading := (mkMessage Loading "Scanning directory for books...").

(** A dismissed picker: [null], and not a line on the console. *)
Lemma browser_picker_contract_witness :
  exists w' selected,
    selectDirectory browserCancelled start = (w', inr selected) /\
    selected = None /\
    console w' = console start.
Proof.
  destruct (browser_picker_contract browserCancelled start eq_refl)
    as (w' & selected & Hrun & _ & Hnull & Hconsole).
  exists w', selected. split; [exact Hrun|]. split; [exact Hnull|].
  rewrite Hconsole. reflexivity.
Defined.

Lemma selected_directory_is_truthy_witness :
  falsy (Some (DirPath "/books")) = true <-> Some (DirPath "/books") = None.
Proof.
  exact (selected_directory_is_truthy (desktopPicking "/books") start start
           (Some (DirPath "/books")) eq_refl).
Defined.

(** [/books]: the unreadable [locked.md] and the directory [sub.md] are left
    out, the two others keep their order. *)
Lemma listing_order_is_kept_witness :
  exists w' files,
    readMarkdownFilesFromDirectory desktop (DirPath "/books") start = (w', inr files) /\
    map file_name files = ["a.md"; "b.markdown"].
Proof.
  destruct (listing_order_is_kept desktopApi None (DirPath "/books") _ start eq_refl)
    as (w' & files & Hrun & Hnames & _).
  exists w', files. split; [exact Hrun | exact Hnames].
Defined.

Lemma long_suffix_is_not_repaired_witness :
  snd (readMarkdownFilesFromDirectory browser (DirHandle untyped) start)
  = inr [mkFile "long.markdown" "" (list_byte_of_string "# Long")].
Proof.
  edestruct (long_suffix_is_not_repaired (Store := Store string) browser untyped start
               [] [] "long.markdown"
               (mkFile "long.markdown" "" (list_byte_of_string "# Long")))
    as (w' & Hrun).
  - reflexivity.
  - reflexivity.
  - now exists "long".
  - rewrite Hrun. reflexivity.
Defined.

(** [flaky]: one candidate and two lines, for two matching entries and an
    iteration that throws. *)
Lemma every_match_is_read_or_logged_witness :
  exists files lines,
    readMarkdownFilesFromDirectory browser (DirHandle flaky) start
      = (mkWorld (console start ++ lines) (store start), inr files) /\
    List.length files + List.length lines = 3.
Proof.
  destruct (proj2 (every_match_is_read_or_logged (Store := Store string))
              browser flaky start eq_refl) as (files & lines & Hrun & Hcount).
  exists files, lines. split; [exact Hrun | exact Hcount].
Defined.

Lemma errors_follow_file_order_witness :
  subseq ["c.md"; "c.md"] (map file_name [alpha; broken; beta; broken]).
Proof.
  exact (proj1 (errors_follow_file_order upload addBook addReadingProgress)
           [alpha; broken; beta; broken] start
           (fst (Examples.addBooksFromFiles [alpha; broken; beta; broken] start))
           (mkScanResult 4 2 0 [mkScanError "c.md" "Invalid markdown";
                                mkScanError "c.md" "Invalid markdown"])
           eq_refl).
Defined.

Lemma failed_scan_ingests_nothing_witness :
  isTauri desktop = true /\
  exists cause,
    readMarkdownFilesFromDirectory desktop (DirPath "/nope") start = (start, inl cause) /\
    new_Error "Failed to scan directory: No such file or directory"
    = new_Error ("Failed to scan directory: " ++ message_or_String cause)%string.
Proof.
  exact (proj2 (failed_scan_ingests_nothing upload addBook addReadingProgress
                  desktop (DirPath "/nope") start start
                  (new_Error "Failed to scan directory: No such file or directory")
                  eq_refl)).
Defined.

Lemma summary_message_tells_situations_witness :
  level (summary_message (mkScanResult 2 2 0 [])) = Success <->
  @nil ScanError = [] /\ 0 < 2.
Proof.
  exact (proj2 (proj2 (summary_message_tells_situations upload addBook addReadingProgress
                         desktop (DirPath "/books") start
                         (fst (Examples.scanDirectory desktop (DirPath "/books") start))
                         (mkScanResult 2 2 0 []) eq_refl))).
Defined.

(** A dismissed picker: the click leaves no message and an empty library. *)
Lemma null_selection_scans_nothing_witness :
  exists w',
    Screen.handleScanDirectory browserCancelled idle = (w', inr tt) /\
    displayed (fst (store w')) = [] /\
    snd (store w') = emptyStore.
Proof.
  exact (null_selection_scans_nothing upload addBook addReadingProgress
           browserCancelled idle eq_refl).
Defined.

(** Picking [shelf]: the indicator, then the success message for three
    books. *)
Lemma handler_reports_the_scan_witness :
  exists w',
    Screen.handleScanDirectory browserPicking idle = (w', inr tt) /\
    displayed (fst (store w')) =
      [loading; mkMessage Success "Added 3 books, 0 already in library"].
Proof.
  destruct (handler_reports_the_scan upload addBook addReadingProgress
              browserPicking idle (DirHandle shelf) eq_refl)
    as (w3 & w4 & outcome & w' & _ & _ & Hrun & _ & _ & _).
  exists w'. split; [exact Hrun|].
  replace w' with (fst (Screen.handleScanDirectory browserPicking idle))
    by (unfold Screen.handleScanDirectory; rewrite Hrun; reflexivity).
  vm_compute. reflexivity.
Defined.

(** A rejecting dialog: one failure message, no indicator. *)
Lemma picker_failure_is_reported_witness :
  exists w',
    Screen.handleScanDirectory dialogBroken idle = (w', inr tt) /\
    displayed (fst (store w')) = [mkMessage Failure "dialog.open not allowed"] /\
    snd (store w') = emptyStore.
Proof.
  destruct (picker_failure_is_reported upload addBook addReadingProgress
              dialogBroken idle (new_Error "dialog.open not allowed") eq_refl)
    as (w' & Hrun & Hshown & Hlib & _).
  exists w'. split; [exact Hrun|]. split; [exact Hshown | exact Hlib].
Defined.

End MoreRuns.

(** ** A failing iteration *)

Section FailingIteration.
Import TauriService.
Context {Store : Type}.

(** Browser mode: when the iteration of the directory throws, the candidates
    collected so far are returned all the same; they are the candidates of an
    iteration that yields the same entries and then finishes. *)
Theorem failing_iteration_keeps_candidates
    (g : Global) (name : string) (values : AsyncIterator) (w : World Store) :
  isTauri g = false ->
  exists w' files,
    readMarkdownFilesFromDirectory g (DirHandle (mkDirHandle name values)) w
      = (w', inr files) /\
    snd (readMarkdownFilesFromDirectory g
           (DirHandle (mkDirHandle name (iterate (yielded values)))) w)
      = inr files.
Proof.
  intros Hmode.
  destruct (readMarkdown_browser g (DirHandle (mkDirHandle name values)) w Hmode)
    as (w' & Hrun & _).
  destruct (readMarkdown_browser g
              (DirHandle (mkDirHandle name (iterate (yielded values)))) w Hmode)
    as (w'' & Hrun' & _).
  eexists. eexists. split; [exact Hrun|].
  rewrite Hrun'. simpl. now rewrite yielded_iterate.
Qed.

End FailingIteration.

Lemma failing_iteration_keeps_candidates_witness :
  exists w',
    TauriService.readMarkdownFilesFromDirectory Examples.browser
      (TauriService.DirHandle Screen.flaky) Examples.start
    = (w', inr [Examples.alpha]).
Proof.
  destruct (failing_iteration_keeps_candidates Examples.browser "flaky"
              (TauriService.dir_values Screen.flaky) Examples.start eq_refl)
    as (w' & files & Hrun & Hsame).
  exists w'. change (TauriService.DirHandle Screen.flaky)
    with (TauriService.DirHandle
            (TauriService.mkDirHandle "flaky" (TauriService.dir_values Screen.flaky))).
  rewrite Hrun. f_equal.
  vm_compute in Hsame. symmetry. exact Hsame.
Defined.
